(** * The DHCP Server collector of windows_exporter

    A shallow embedding of [internal/collector/dhcp/dhcp.go]: the collector
    record, [Build], [Collect] with its two acquisition paths [collect]
    (perflib snapshot decoded into records) and [collectPDH] (named lookup
    through a query handle), and [Close]; followed by the properties of the
    collector that the specification states. *)

From Stdlib Require Import ZArith Ascii String.
From Stdlib Require Import Floats.SpecFloat.
From stdpp Require Import base strings list gmap.

(** ** Go values *)

(** [float64]: IEEE 754 binary64, as the specification datatype of the
    Standard Library (53 bits of precision, exponents below 1024). *)
Definition float64 : Type := spec_float.

Definition float64_of_Z (z : Z) : float64 := binary_normalize 53 1024 z 0 false.

(** The zero value of [float64] is [+0]. *)
Definition float64_zero : float64 := S754_zero false.

(** An [error] is identified with its message; the nil error is [None]. *)
Definition error : Type := string.

(** A Go expression either yields a value or panics.  The collector can
    panic in three ways: through a nil pointer or nil interface, through an
    index out of range, and in [MustNewConstMetric]. *)
Inductive PanicValue : Type :=
| NilDereference
| IndexOutOfRange (index length : nat)
| PanicError (e : error).

Inductive Res (A : Type) : Type :=
| Done (a : A)
| Panicked (p : PanicValue).
Arguments Done {A} a.
Arguments Panicked {A} p.

#[global] Instance Res_ret : MRet Res := λ A a, Done a.
#[global] Instance Res_bind : MBind Res := λ A B f r,
  match r with
  | Done a => f a
  | Panicked p => Panicked p
  end.
#[global] Instance Res_fmap : FMap Res := λ A B f r,
  match r with
  | Done a => Done (f a)
  | Panicked p => Panicked p
  end.

(** [s[i]] on a slice. *)
Definition index {A : Type} (s : list A) (i : nat) : Res A :=
  match s !! i with
  | Some a => Done a
  | None => Panicked (IndexOutOfRange i (length s))
  end.

Module errors.
Definition New (text : string) : error := text.
End errors.

Module fmt.
(** [fmt.Errorf(format, err)] for a format with one verb, [%w]: the verb is
    replaced by the message of the wrapped error. *)
Fixpoint Errorf (format : string) (err : error) : error :=
  match format with
  | String "%"%char (String "w"%char rest) => err +:+ rest
  | String a rest => String a (Errorf rest err)
  | EmptyString => EmptyString
  end.
End fmt.

(** [strings.Contains]. *)
Module strings.
Fixpoint HasPrefix (s prefix : string) : bool :=
  match prefix, s with
  | EmptyString, _ => true
  | String a p, String b s' => bool_decide (a = b) && HasPrefix s' p
  | String _ _, EmptyString => false
  end.

Fixpoint Contains (s substr : string) : bool :=
  HasPrefix s substr ||
  match s with
  | EmptyString => false
  | String _ s' => Contains s' substr
  end.
End strings.

(** ** The Prometheus client library, as far as the collector uses it *)

Module prometheus.

Inductive ValueType : Type := CounterValue | GaugeValue | UntypedValue.

Definition isNameStart (a : ascii) : bool :=
  let n := N_of_ascii a in
  ((97 <=? n) && (n <=? 122) || (65 <=? n) && (n <=? 90) || (n =? 95) || (n =? 58))%N.

Definition isNameChar (a : ascii) : bool :=
  let n := N_of_ascii a in
  (isNameStart a || (48 <=? n) && (n <=? 57))%N.

Fixpoint allNameChars (s : string) : bool :=
  match s with
  | EmptyString => true
  | String a s' => isNameChar a && allNameChars s'
  end.

(** [model.IsValidMetricName]: the name matches
    [[a-zA-Z_:][a-zA-Z0-9_:]*]. *)
Definition IsValidMetricName (s : string) : bool :=
  match s with
  | EmptyString => false
  | String a s' => isNameStart a && allNameChars s'
  end.

(** [BuildFQName] joins the non-empty parts with underscores; an empty
    [name] gives the empty string. *)
Definition BuildFQName (namespace subsystem name : string) : string :=
  if bool_decide (name = EmptyString) then EmptyString
  else if bool_decide (namespace ≠ EmptyString) && bool_decide (subsystem ≠ EmptyString)
       then namespace +:+ "_" +:+ subsystem +:+ "_" +:+ name
  else if bool_decide (namespace ≠ EmptyString) then namespace +:+ "_" +:+ name
  else if bool_decide (subsystem ≠ EmptyString) then subsystem +:+ "_" +:+ name
  else name.

(** A descriptor.  The collector passes nil for the variable labels and
    for the constant labels of every descriptor, so a descriptor is its
    name, its help text and the error recorded at construction. *)
Record Desc : Type := {
  fqName : string;
  help : string;
  err : option error
}.

(** The verb [%q] on a name without characters to escape. *)
Definition quote (s : string) : string :=
  String (ascii_of_N 34) s +:+ String (ascii_of_N 34) EmptyString.

(** [NewDesc(fqName, help, nil, nil)]: never fails; an invalid name is
    recorded in the descriptor and reported when a metric is made of it. *)
Definition NewDesc (fqName help : string) : Desc :=
  {| fqName := fqName;
     help := help;
     err := if IsValidMetricName fqName then None
            else Some (quote fqName +:+ " is not a valid metric name") |}.

(** A constant metric: descriptor, kind and value (no label values). *)
Record Metric : Type := {
  desc : Desc;
  valType : ValueType;
  val : float64
}.

(** [NewConstMetric] reads [desc.err] first, so a nil descriptor panics;
    an error of the descriptor is returned.  No label values are passed,
    and the descriptors of this collector have no variable labels. *)
Definition NewConstMetric (desc : option Desc) (valueType : ValueType)
    (value : float64) : Res (option Metric * option error) :=
  match desc with
  | None => Panicked NilDereference
  | Some d =>
      match err d with
      | Some e => Done (None, Some e)
      | None => Done (Some {| desc := d; valType := valueType; val := value |}, None)
      end
  end.

(** [MustNewConstMetric] panics where [NewConstMetric] returns an error. *)
Definition MustNewConstMetric (desc : option Desc) (valueType : ValueType)
    (value : float64) : Res Metric :=
  r ← NewConstMetric desc valueType value;
  match r with
  | (Some m, None) => Done m
  | (_, Some e) => Panicked (PanicError e)
  | (None, None) => Panicked NilDereference
  end.

End prometheus.

(** ** Packages of the repository that the collector imports

    Their sources are not part of this development.  What the collector
    needs of them is declared here: types as the collector uses them,
    constants as fields of a class, calls into the operating system as
    questions to the [World]. *)

Module perftypes.

(** Modelled from the spec: [perftypes.CounterValues], the value tuple of
    one counter of one instance (first value, second value); only the
    first value is consumed by the collector. *)
Record CounterValues : Type := {
  FirstValue : float64;
  SecondValue : float64
}.

(** The zero value of the struct, which indexing a map yields for an
    absent key. *)
Definition zero : CounterValues :=
  {| FirstValue := float64_zero; SecondValue := float64_zero |}.

(** [perftypes.EmptyInstance], the instance key of an object without
    instances. *)
Class Decl : Type := { EmptyInstance : string }.

End perftypes.

(** [m[k]] on a map of counter values: the zero value for an absent key. *)
Notation "m .[ k ]" := (default perftypes.zero (m !! k))
  (at level 1, format "m .[ k ]").

(** ** The world outside the collector *)

(** A query handle, the value behind the interface [perfdata.Collector]. *)
Inductive Handle : Type := PdhQuery (id : N).

#[global] Instance Handle_eq_dec : EqDecision Handle.
Proof. solve_decision. Defined.

(** What the collaborators answer at the time of one call of the collector:
    the configuration switch, the creation of a query handle, and a
    collection through a handle. *)
Record World : Type := {
  pdhEnabled : bool;
  newCollector : string → list string → list string →
                 option Handle * option error;
  handleCollect : Handle →
                  gmap string (gmap string perftypes.CounterValues) * option error
}.

(** What a call of the collector does to the outside, in order. *)
Inductive Event : Type :=
| EvPDHEnabled (answer : bool)
| EvNewCollector (object : string) (instances counters : list string)
| EvCollect (h : Handle)
| EvClose (h : Handle)
| EvSend (m : prometheus.Metric).

(** A method of the collector reads the world, produces events and returns
    a value or panics. *)
Definition M (A : Type) : Type := World → list Event * Res A.

#[global] Instance M_ret : MRet M := λ A a _, ([], Done a).
#[global] Instance M_bind : MBind M := λ A B f m w,
  match m w with
  | (t, Done a) => let '(t', r) := f a w in ((t ++ t')%list, r)
  | (t, Panicked p) => (t, Panicked p)
  end.

(** [ch <- e]: the operand is evaluated, then the metric is sent. *)
Definition chan_send (e : Res prometheus.Metric) : M unit := λ _,
  match e with
  | Done m => ([EvSend m], Done tt)
  | Panicked p => ([], Panicked p)
  end.

Notation "'ch' '<~' e" := (chan_send e) (at level 70, e at level 69).

Module utils.
(** [utils.PDHEnabled()]: the configuration switch between the two
    acquisition paths. *)
Definition PDHEnabled : M bool := λ w,
  ([EvPDHEnabled (pdhEnabled w)], Done (pdhEnabled w)).
End utils.

Module perfdata.

(** The interface [perfdata.Collector]; [None] is the nil interface. *)
Definition Collector : Type := Handle.

(** [perfdata.V1] and [perfdata.AllInstances]. *)
Class Decl : Type := {
  Engine : Type;
  V1 : Engine;
  AllInstances : list string
}.

Definition NewCollector `{Decl} (engine : Engine) (object : string)
    (instances counters : list string) : M (option Collector * option error) := λ w,
  ([EvNewCollector object instances counters],
   Done (newCollector w object instances counters)).

(** The method [Collect] of the interface; calling it on the nil interface
    panics. *)
Definition Collect (c : option Collector)
    : M (gmap string (gmap string perftypes.CounterValues) * option error) := λ w,
  match c with
  | None => ([], Panicked NilDereference)
  | Some h => ([EvCollect h], Done (handleCollect w h))
  end.

(** Modelled from the spec: the method [Close] of the interface, the
    teardown that releases the handle. *)
Definition Close (c : option Collector) : M unit := λ w,
  match c with
  | None => ([], Panicked NilDereference)
  | Some h => ([EvClose h], Done tt)
  end.

End perfdata.

(** Modelled from the spec: [dhcpPerf], the per-instance structured record
    of the performance object (its declaration is in the constants file of
    the package).  The fields are the ones [collect] reads, each a
    [float64]. *)
Record dhcpPerf : Type := {
  PacketsReceivedTotal : float64;
  DuplicatesDroppedTotal : float64;
  PacketsExpiredTotal : float64;
  ActiveQueueLength : float64;
  ConflictCheckQueueLength : float64;
  DiscoversTotal : float64;
  OffersTotal : float64;
  RequestsTotal : float64;
  InformsTotal : float64;
  AcksTotal : float64;
  NacksTotal : float64;
  DeclinesTotal : float64;
  ReleasesTotal : float64;
  OfferQueueLength : float64;
  DeniedDueToMatch : float64;
  DeniedDueToNonMatch : float64;
  FailoverBndUpdSentTotal : float64;
  FailoverBndUpdReceivedTotal : float64;
  FailoverBndAckSentTotal : float64;
  FailoverBndAckReceivedTotal : float64;
  FailoverBndUpdPendingOutboundQueue : float64;
  FailoverTransitionsCommunicationInterruptedState : float64;
  FailoverTransitionsPartnerDownState : float64;
  FailoverTransitionsRecoverState : float64;
  FailoverBndUpdDropped : float64
}.

Module v1.

(** [v1.PerfObject] is the snapshot of one performance object, and
    [v1.UnmarshalObject(obj, &dst, logger)] decodes it into the slice
    [dst], one record per instance, or returns an error; here the slice is
    returned together with the error. *)
Class Decl : Type := {
  PerfObject : Type;
  UnmarshalObject : option PerfObject → list dhcpPerf * option error
}.

End v1.

Module types.

(** [types.Namespace], the first part of every metric name. *)
Class Decl : Type := { Namespace : string }.

(** [types.ScrapeContext]: the snapshots taken for this scrape, by object
    name.  An absent key reads as the nil pointer. *)
Record ScrapeContext `{v1.Decl} : Type := {
  PerfObjects : gmap string v1.PerfObject
}.

End types.

(** ** Package dhcp *)

Definition Name : string := "dhcp".

Inductive Config : Type := mkConfig.

Definition ConfigDefaults : Config := mkConfig.

(** The counter names, constants of the package declared in its constants
    file. *)
Class Const : Type := {
  acksTotal : string;
  activeQueueLength : string;
  conflictCheckQueueLength : string;
  declinesTotal : string;
  deniedDueToMatch : string;
  deniedDueToNonMatch : string;
  discoversTotal : string;
  duplicatesDroppedTotal : string;
  failoverBndAckReceivedTotal : string;
  failoverBndAckSentTotal : string;
  failoverBndUpdDropped : string;
  failoverBndUpdPendingOutboundQueue : string;
  failoverBndUpdReceivedTotal : string;
  failoverBndUpdSentTotal : string;
  failoverTransitionsCommunicationInterruptedState : string;
  failoverTransitionsPartnerDownState : string;
  failoverTransitionsRecoverState : string;
  informsTotal : string;
  nacksTotal : string;
  offerQueueLength : string;
  offersTotal : string;
  packetsExpiredTotal : string;
  packetsReceivedTotal : string;
  releasesTotal : string;
  requestsTotal : string
}.

(** The struct [Collector]; a field of type [*prometheus.Desc] is [None]
    while it is nil. *)
Module Collector.
Record t : Type := {
  config : Config;
  perfDataCollector : option perfdata.Collector;
  acksTotal : option prometheus.Desc;
  activeQueueLength : option prometheus.Desc;
  conflictCheckQueueLength : option prometheus.Desc;
  declinesTotal : option prometheus.Desc;
  deniedDueToMatch : option prometheus.Desc;
  deniedDueToNonMatch : option prometheus.Desc;
  discoversTotal : option prometheus.Desc;
  duplicatesDroppedTotal : option prometheus.Desc;
  failoverBndAckReceivedTotal : option prometheus.Desc;
  failoverBndAckSentTotal : option prometheus.Desc;
  failoverBndUpdDropped : option prometheus.Desc;
  failoverBndUpdPendingOutboundQueue : option prometheus.Desc;
  failoverBndUpdReceivedTotal : option prometheus.Desc;
  failoverBndUpdSentTotal : option prometheus.Desc;
  failoverTransitionsCommunicationInterruptedState : option prometheus.Desc;
  failoverTransitionsPartnerDownState : option prometheus.Desc;
  failoverTransitionsRecoverState : option prometheus.Desc;
  informsTotal : option prometheus.Desc;
  nACKsTotal : option prometheus.Desc;
  offerQueueLength : option prometheus.Desc;
  offersTotal : option prometheus.Desc;
  packetsExpiredTotal : option prometheus.Desc;
  packetsReceivedTotal : option prometheus.Desc;
  releasesTotal : option prometheus.Desc;
  requestsTotal : option prometheus.Desc
}.

(** [c.perfDataCollector = p] *)
Definition set_perfDataCollector (p : option perfdata.Collector) (c : t) : t :=
  {| config := config c;
     perfDataCollector := p;
     acksTotal := acksTotal c;
     activeQueueLength := activeQueueLength c;
     conflictCheckQueueLength := conflictCheckQueueLength c;
     declinesTotal := declinesTotal c;
     deniedDueToMatch := deniedDueToMatch c;
     deniedDueToNonMatch := deniedDueToNonMatch c;
     discoversTotal := discoversTotal c;
     duplicatesDroppedTotal := duplicatesDroppedTotal c;
     failoverBndAckReceivedTotal := failoverBndAckReceivedTotal c;
     failoverBndAckSentTotal := failoverBndAckSentTotal c;
     failoverBndUpdDropped := failoverBndUpdDropped c;
     failoverBndUpdPendingOutboundQueue := failoverBndUpdPendingOutboundQueue c;
     failoverBndUpdReceivedTotal := failoverBndUpdReceivedTotal c;
     failoverBndUpdSentTotal := failoverBndUpdSentTotal c;
     failoverTransitionsCommunicationInterruptedState := failoverTransitionsCommunicationInterruptedState c;
     failoverTransitionsPartnerDownState := failoverTransitionsPartnerDownState c;
     failoverTransitionsRecoverState := failoverTransitionsRecoverState c;
     informsTotal := informsTotal c;
     nACKsTotal := nACKsTotal c;
     offerQueueLength := offerQueueLength c;
     offersTotal := offersTotal c;
     packetsExpiredTotal := packetsExpiredTotal c;
     packetsReceivedTotal := packetsReceivedTotal c;
     releasesTotal := releasesTotal c;
     requestsTotal := requestsTotal c |}.
End Collector.

Abbreviation Collector := Collector.t.

Section dhcp.
Context `{!types.Decl, !perftypes.Decl, !perfdata.Decl, !v1.Decl, !Const}.

Definition New (config : option Config) : Collector :=
  let config := match config with None => ConfigDefaults | Some cfg => cfg end in
  {| Collector.config := config;
     Collector.perfDataCollector := None;
     Collector.acksTotal := None;
     Collector.activeQueueLength := None;
     Collector.conflictCheckQueueLength := None;
     Collector.declinesTotal := None;
     Collector.deniedDueToMatch := None;
     Collector.deniedDueToNonMatch := None;
     Collector.discoversTotal := None;
     Collector.duplicatesDroppedTotal := None;
     Collector.failoverBndAckReceivedTotal := None;
     Collector.failoverBndAckSentTotal := None;
     Collector.failoverBndUpdDropped := None;
     Collector.failoverBndUpdPendingOutboundQueue := None;
     Collector.failoverBndUpdReceivedTotal := None;
     Collector.failoverBndUpdSentTotal := None;
     Collector.failoverTransitionsCommunicationInterruptedState := None;
     Collector.failoverTransitionsPartnerDownState := None;
     Collector.failoverTransitionsRecoverState := None;
     Collector.informsTotal := None;
     Collector.nACKsTotal := None;
     Collector.offerQueueLength := None;
     Collector.offersTotal := None;
     Collector.packetsExpiredTotal := None;
     Collector.packetsReceivedTotal := None;
     Collector.releasesTotal := None;
     Collector.requestsTotal := None |}.

(** [NewWithFlags] returns the zero collector; the application of the flag
    parser is not used. *)
Definition NewWithFlags : Collector :=
  {| Collector.config := mkConfig;
     Collector.perfDataCollector := None;
     Collector.acksTotal := None;
     Collector.activeQueueLength := None;
     Collector.conflictCheckQueueLength := None;
     Collector.declinesTotal := None;
     Collector.deniedDueToMatch := None;
     Collector.deniedDueToNonMatch := None;
     Collector.discoversTotal := None;
     Collector.duplicatesDroppedTotal := None;
     Collector.failoverBndAckReceivedTotal := None;
     Collector.failoverBndAckSentTotal := None;
     Collector.failoverBndUpdDropped := None;
     Collector.failoverBndUpdPendingOutboundQueue := None;
     Collector.failoverBndUpdReceivedTotal := None;
     Collector.failoverBndUpdSentTotal := None;
     Collector.failoverTransitionsCommunicationInterruptedState := None;
     Collector.failoverTransitionsPartnerDownState := None;
     Collector.failoverTransitionsRecoverState := None;
     Collector.informsTotal := None;
     Collector.nACKsTotal := None;
     Collector.offerQueueLength := None;
     Collector.offersTotal := None;
     Collector.packetsExpiredTotal := None;
     Collector.packetsReceivedTotal := None;
     Collector.releasesTotal := None;
     Collector.requestsTotal := None |}.

Definition GetName (c : Collector) : string := Name.

Definition GetPerfCounter (c : Collector) : M (list string * option error) :=
  pdh ← utils.PDHEnabled;
  if (pdh : bool) then mret ([], None)
  else mret (["DHCP Server"], None).

Definition Close (c : Collector) : M (option error) :=
  mret None.

(** [Build] assigns to the fields of the receiver; the collector after the
    call is returned with the error.  The early return of the source, when
    the handle cannot be made, is the [Some] branch of the match. *)
Definition Build (c : Collector) : M (Collector * option error) :=
  pdh ← utils.PDHEnabled;
  '(c, err) ← (if (pdh : bool) then
                 let counters := [
                   acksTotal;
                   activeQueueLength;
                   conflictCheckQueueLength;
                   declinesTotal;
                   deniedDueToMatch;
                   deniedDueToNonMatch;
                   discoversTotal;
                   duplicatesDroppedTotal;
                   failoverBndAckReceivedTotal;
                   failoverBndAckSentTotal;
                   failoverBndUpdDropped;
                   failoverBndUpdPendingOutboundQueue;
                   failoverBndUpdReceivedTotal;
                   failoverBndUpdSentTotal;
                   failoverTransitionsCommunicationInterruptedState;
                   failoverTransitionsPartnerDownState;
                   failoverTransitionsRecoverState;
                   informsTotal;
                   nacksTotal;
                   offerQueueLength;
                   offersTotal;
                   packetsExpiredTotal;
                   packetsReceivedTotal;
                   releasesTotal;
                   requestsTotal
                 ] in
                 '(p, err) ← perfdata.NewCollector perfdata.V1 "DHCP Server"
                               perfdata.AllInstances counters;
                 mret (Collector.set_perfDataCollector p c, err)
               else mret (c, None));
  match err with
  | Some err =>
      mret (c, Some (fmt.Errorf "failed to create DHCP Server collector: %w" err))
  | None =>
      mret (
        {| Collector.config := Collector.config c;
           Collector.perfDataCollector := Collector.perfDataCollector c;
           Collector.packetsReceivedTotal := Some (prometheus.NewDesc
             (prometheus.BuildFQName types.Namespace Name "packets_received_total")
             "Total number of packets received by the DHCP server (PacketsReceivedTotal)");
           Collector.duplicatesDroppedTotal := Some (prometheus.NewDesc
             (prometheus.BuildFQName types.Namespace Name "duplicates_dropped_total")
             "Total number of duplicate packets received by the DHCP server (DuplicatesDroppedTotal)");
           Collector.packetsExpiredTotal := Some (prometheus.NewDesc
             (prometheus.BuildFQName types.Namespace Name "packets_expired_total")
             "Total number of packets expired in the DHCP server message queue (PacketsExpiredTotal)");
           Collector.activeQueueLength := Some (prometheus.NewDesc
             (prometheus.BuildFQName types.Namespace Name "active_queue_length")
             "Number of packets in the processing queue of the DHCP server (ActiveQueueLength)");
           Collector.conflictCheckQueueLength := Some (prometheus.NewDesc
             (prometheus.BuildFQName types.Namespace Name "conflict_check_queue_length")
             "Number of packets in the DHCP server queue waiting on conflict detection (ping). (ConflictCheckQueueLength)");
           Collector.discoversTotal := Some (prometheus.NewDesc
             (prometheus.BuildFQName types.Namespace Name "discovers_total")
             "Total DHCP Discovers received by the DHCP server (DiscoversTotal)");
           Collector.offersTotal := Some (prometheus.NewDesc
             (prometheus.BuildFQName types.Namespace Name "offers_total")
             "Total DHCP Offers sent by the DHCP server (OffersTotal)");
           Collector.requestsTotal := Some (prometheus.NewDesc
             (prometheus.BuildFQName types.Namespace Name "requests_total")
             "Total DHCP Requests received by the DHCP server (RequestsTotal)");
           Collector.informsTotal := Some (prometheus.NewDesc
             (prometheus.BuildFQName types.Namespace Name "informs_total")
             "Total DHCP Informs received by the DHCP server (InformsTotal)");
           Collector.acksTotal := Some (prometheus.NewDesc
             (prometheus.BuildFQName types.Namespace Name "acks_total")
             "Total DHCP Acks sent by the DHCP server (AcksTotal)");
           Collector.nACKsTotal := Some (prometheus.NewDesc
             (prometheus.BuildFQName types.Namespace Name "nacks_total")
             "Total DHCP Nacks sent by the DHCP server (NacksTotal)");
           Collector.declinesTotal := Some (prometheus.NewDesc
             (prometheus.BuildFQName types.Namespace Name "declines_total")
             "Total DHCP Declines received by the DHCP server (DeclinesTotal)");
           Collector.releasesTotal := Some (prometheus.NewDesc
             (prometheus.BuildFQName types.Namespace Name "releases_total")
             "Total DHCP Releases received by the DHCP server (ReleasesTotal)");
           Collector.offerQueueLength := Some (prometheus.NewDesc
             (prometheus.BuildFQName types.Namespace Name "offer_queue_length")
             "Number of packets in the offer queue of the DHCP server (OfferQueueLength)");
           Collector.deniedDueToMatch := Some (prometheus.NewDesc
             (prometheus.BuildFQName types.Namespace Name "denied_due_to_match_total")
             "Total number of DHCP requests denied, based on matches from the Deny list (DeniedDueToMatch)");
           Collector.deniedDueToNonMatch := Some (prometheus.NewDesc
             (prometheus.BuildFQName types.Namespace Name "denied_due_to_nonmatch_total")
             "Total number of DHCP requests denied, based on non-matches from the Allow list (DeniedDueToNonMatch)");
           Collector.failoverBndUpdSentTotal := Some (prometheus.NewDesc
             (prometheus.BuildFQName types.Namespace Name "failover_bndupd_sent_total")
             "Number of DHCP fail over Binding Update messages sent (FailoverBndupdSentTotal)");
           Collector.failoverBndUpdReceivedTotal := Some (prometheus.NewDesc
             (prometheus.BuildFQName types.Namespace Name "failover_bndupd_received_total")
             "Number of DHCP fail over Binding Update messages received (FailoverBndupdReceivedTotal)");
           Collector.failoverBndAckSentTotal := Some (prometheus.NewDesc
             (prometheus.BuildFQName types.Namespace Name "failover_bndack_sent_total")
             "Number of DHCP fail over Binding Ack messages sent (FailoverBndackSentTotal)");
           Collector.failoverBndAckReceivedTotal := Some (prometheus.NewDesc
             (prometheus.BuildFQName types.Namespace Name "failover_bndack_received_total")
             "Number of DHCP fail over Binding Ack messages received (FailoverBndackReceivedTotal)");
           Collector.failoverBndUpdPendingOutboundQueue := Some (prometheus.NewDesc
             (prometheus.BuildFQName types.Namespace Name "failover_bndupd_pending_in_outbound_queue")
             "Number of pending outbound DHCP fail over Binding Update messages (FailoverBndupdPendingOutboundQueue)");
           Collector.failoverTransitionsCommunicationInterruptedState := Some (prometheus.NewDesc
             (prometheus.BuildFQName types.Namespace Name "failover_transitions_communicationinterrupted_state_total")
             "Total number of transitions into COMMUNICATION INTERRUPTED state (FailoverTransitionsCommunicationinterruptedState)");
           Collector.failoverTransitionsPartnerDownState := Some (prometheus.NewDesc
             (prometheus.BuildFQName types.Namespace Name "failover_transitions_partnerdown_state_total")
             "Total number of transitions into PARTNER DOWN state (FailoverTransitionsPartnerdownState)");
           Collector.failoverTransitionsRecoverState := Some (prometheus.NewDesc
             (prometheus.BuildFQName types.Namespace Name "failover_transitions_recover_total")
             "Total number of transitions into RECOVER state (FailoverTransitionsRecoverState)");
           Collector.failoverBndUpdDropped := Some (prometheus.NewDesc
             (prometheus.BuildFQName types.Namespace Name "failover_bndupd_dropped_total")
             "Total number of DHCP fail over Binding Updates dropped (FailoverBndupdDropped)") |},
        None)
  end.

Definition collect (c : Collector) (ctx : types.ScrapeContext) : M (option error) :=
  let '(dhcpPerfs, err) := v1.UnmarshalObject (types.PerfObjects ctx !! "DHCP Server") in
  match err with
  | Some err => mret (Some err)
  | None =>
      ch <~ (v ← PacketsReceivedTotal <$> index dhcpPerfs 0;
             prometheus.MustNewConstMetric (Collector.packetsReceivedTotal c) prometheus.CounterValue v);;
      ch <~ (v ← DuplicatesDroppedTotal <$> index dhcpPerfs 0;
             prometheus.MustNewConstMetric (Collector.duplicatesDroppedTotal c) prometheus.CounterValue v);;
      ch <~ (v ← PacketsExpiredTotal <$> index dhcpPerfs 0;
             prometheus.MustNewConstMetric (Collector.packetsExpiredTotal c) prometheus.CounterValue v);;
      ch <~ (v ← ActiveQueueLength <$> index dhcpPerfs 0;
             prometheus.MustNewConstMetric (Collector.activeQueueLength c) prometheus.GaugeValue v);;
      ch <~ (v ← ConflictCheckQueueLength <$> index dhcpPerfs 0;
             prometheus.MustNewConstMetric (Collector.conflictCheckQueueLength c) prometheus.GaugeValue v);;
      ch <~ (v ← DiscoversTotal <$> index dhcpPerfs 0;
             prometheus.MustNewConstMetric (Collector.discoversTotal c) prometheus.CounterValue v);;
      ch <~ (v ← OffersTotal <$> index dhcpPerfs 0;
             prometheus.MustNewConstMetric (Collector.offersTotal c) prometheus.CounterValue v);;
      ch <~ (v ← RequestsTotal <$> index dhcpPerfs 0;
             prometheus.MustNewConstMetric (Collector.requestsTotal c) prometheus.CounterValue v);;
      ch <~ (v ← InformsTotal <$> index dhcpPerfs 0;
             prometheus.MustNewConstMetric (Collector.informsTotal c) prometheus.CounterValue v);;
      ch <~ (v ← AcksTotal <$> index dhcpPerfs 0;
             prometheus.MustNewConstMetric (Collector.acksTotal c) prometheus.CounterValue v);;
      ch <~ (v ← NacksTotal <$> index dhcpPerfs 0;
             prometheus.MustNewConstMetric (Collector.nACKsTotal c) prometheus.CounterValue v);;
      ch <~ (v ← DeclinesTotal <$> index dhcpPerfs 0;
             prometheus.MustNewConstMetric (Collector.declinesTotal c) prometheus.CounterValue v);;
      ch <~ (v ← ReleasesTotal <$> index dhcpPerfs 0;
             prometheus.MustNewConstMetric (Collector.releasesTotal c) prometheus.CounterValue v);;
      ch <~ (v ← OfferQueueLength <$> index dhcpPerfs 0;
             prometheus.MustNewConstMetric (Collector.offerQueueLength c) prometheus.GaugeValue v);;
      ch <~ (v ← DeniedDueToMatch <$> index dhcpPerfs 0;
             prometheus.MustNewConstMetric (Collector.deniedDueToMatch c) prometheus.CounterValue v);;
      ch <~ (v ← DeniedDueToNonMatch <$> index dhcpPerfs 0;
             prometheus.MustNewConstMetric (Collector.deniedDueToNonMatch c) prometheus.CounterValue v);;
      ch <~ (v ← FailoverBndUpdSentTotal <$> index dhcpPerfs 0;
             prometheus.MustNewConstMetric (Collector.failoverBndUpdSentTotal c) prometheus.CounterValue v);;
      ch <~ (v ← FailoverBndUpdReceivedTotal <$> index dhcpPerfs 0;
             prometheus.MustNewConstMetric (Collector.failoverBndUpdReceivedTotal c) prometheus.CounterValue v);;
      ch <~ (v ← FailoverBndAckSentTotal <$> index dhcpPerfs 0;
             prometheus.MustNewConstMetric (Collector.failoverBndAckSentTotal c) prometheus.CounterValue v);;
      ch <~ (v ← FailoverBndAckReceivedTotal <$> index dhcpPerfs 0;
             prometheus.MustNewConstMetric (Collector.failoverBndAckReceivedTotal c) prometheus.CounterValue v);;
      ch <~ (v ← FailoverBndUpdPendingOutboundQueue <$> index dhcpPerfs 0;
             prometheus.MustNewConstMetric (Collector.failoverBndUpdPendingOutboundQueue c) prometheus.GaugeValue v);;
      ch <~ (v ← FailoverTransitionsCommunicationInterruptedState <$> index dhcpPerfs 0;
             prometheus.MustNewConstMetric (Collector.failoverTransitionsCommunicationInterruptedState c) prometheus.CounterValue v);;
      ch <~ (v ← FailoverTransitionsPartnerDownState <$> index dhcpPerfs 0;
             prometheus.MustNewConstMetric (Collector.failoverTransitionsPartnerDownState c) prometheus.CounterValue v);;
      ch <~ (v ← FailoverTransitionsRecoverState <$> index dhcpPerfs 0;
             prometheus.MustNewConstMetric (Collector.failoverTransitionsRecoverState c) prometheus.CounterValue v);;
      ch <~ (v ← FailoverBndUpdDropped <$> index dhcpPerfs 0;
             prometheus.MustNewConstMetric (Collector.failoverBndUpdDropped c) prometheus.CounterValue v);;
      mret None
  end.

Definition collectPDH (c : Collector) : M (option error) :=
  '(perfData, err) ← perfdata.Collect (Collector.perfDataCollector c);
  match err with
  | Some err =>
      mret (Some (fmt.Errorf "failed to collect DHCP Server metrics: %w" err))
  | None =>
      match perfData !! perftypes.EmptyInstance with
      | None =>
          mret (Some (errors.New "perflib query for DHCP Server returned empty result set"))
      | Some data =>
          ch <~ prometheus.MustNewConstMetric (Collector.packetsReceivedTotal c) prometheus.CounterValue
                  (perftypes.FirstValue data.[packetsReceivedTotal]);;
          ch <~ prometheus.MustNewConstMetric (Collector.duplicatesDroppedTotal c) prometheus.CounterValue
                  (perftypes.FirstValue data.[duplicatesDroppedTotal]);;
          ch <~ prometheus.MustNewConstMetric (Collector.packetsExpiredTotal c) prometheus.CounterValue
                  (perftypes.FirstValue data.[packetsExpiredTotal]);;
          ch <~ prometheus.MustNewConstMetric (Collector.activeQueueLength c) prometheus.GaugeValue
                  (perftypes.FirstValue data.[activeQueueLength]);;
          ch <~ prometheus.MustNewConstMetric (Collector.conflictCheckQueueLength c) prometheus.GaugeValue
                  (perftypes.FirstValue data.[conflictCheckQueueLength]);;
          ch <~ prometheus.MustNewConstMetric (Collector.discoversTotal c) prometheus.CounterValue
                  (perftypes.FirstValue data.[discoversTotal]);;
          ch <~ prometheus.MustNewConstMetric (Collector.offersTotal c) prometheus.CounterValue
                  (perftypes.FirstValue data.[offersTotal]);;
          ch <~ prometheus.MustNewConstMetric (Collector.requestsTotal c) prometheus.CounterValue
                  (perftypes.FirstValue data.[requestsTotal]);;
          ch <~ prometheus.MustNewConstMetric (Collector.informsTotal c) prometheus.CounterValue
                  (perftypes.FirstValue data.[informsTotal]);;
          ch <~ prometheus.MustNewConstMetric (Collector.acksTotal c) prometheus.CounterValue
                  (perftypes.FirstValue data.[acksTotal]);;
          ch <~ prometheus.MustNewConstMetric (Collector.nACKsTotal c) prometheus.CounterValue
                  (perftypes.FirstValue data.[nacksTotal]);;
          ch <~ prometheus.MustNewConstMetric (Collector.declinesTotal c) prometheus.CounterValue
                  (perftypes.FirstValue data.[declinesTotal]);;
          ch <~ prometheus.MustNewConstMetric (Collector.releasesTotal c) prometheus.CounterValue
                  (perftypes.FirstValue data.[releasesTotal]);;
          ch <~ prometheus.MustNewConstMetric (Collector.offerQueueLength c) prometheus.GaugeValue
                  (perftypes.FirstValue data.[offerQueueLength]);;
          ch <~ prometheus.MustNewConstMetric (Collector.deniedDueToMatch c) prometheus.CounterValue
                  (perftypes.FirstValue data.[deniedDueToMatch]);;
          ch <~ prometheus.MustNewConstMetric (Collector.deniedDueToNonMatch c) prometheus.CounterValue
                  (perftypes.FirstValue data.[deniedDueToNonMatch]);;
          ch <~ prometheus.MustNewConstMetric (Collector.failoverBndUpdSentTotal c) prometheus.CounterValue
                  (perftypes.FirstValue data.[failoverBndUpdSentTotal]);;
          ch <~ prometheus.MustNewConstMetric (Collector.failoverBndUpdReceivedTotal c) prometheus.CounterValue
                  (perftypes.FirstValue data.[failoverBndUpdReceivedTotal]);;
          ch <~ prometheus.MustNewConstMetric (Collector.failoverBndAckSentTotal c) prometheus.CounterValue
                  (perftypes.FirstValue data.[failoverBndAckSentTotal]);;
          ch <~ prometheus.MustNewConstMetric (Collector.failoverBndAckReceivedTotal c) prometheus.CounterValue
                  (perftypes.FirstValue data.[failoverBndAckReceivedTotal]);;
          ch <~ prometheus.MustNewConstMetric (Collector.failoverBndUpdPendingOutboundQueue c) prometheus.GaugeValue
                  (perftypes.FirstValue data.[failoverBndUpdPendingOutboundQueue]);;
          ch <~ prometheus.MustNewConstMetric (Collector.failoverTransitionsCommunicationInterruptedState c) prometheus.CounterValue
                  (perftypes.FirstValue data.[failoverTransitionsCommunicationInterruptedState]);;
          ch <~ prometheus.MustNewConstMetric (Collector.failoverTransitionsPartnerDownState c) prometheus.CounterValue
                  (perftypes.FirstValue data.[failoverTransitionsPartnerDownState]);;
          ch <~ prometheus.MustNewConstMetric (Collector.failoverTransitionsRecoverState c) prometheus.CounterValue
                  (perftypes.FirstValue data.[failoverTransitionsRecoverState]);;
          ch <~ prometheus.MustNewConstMetric (Collector.failoverBndUpdDropped c) prometheus.CounterValue
                  (perftypes.FirstValue data.[failoverBndUpdDropped]);;
          mret None
      end
  end.

Definition Collect (c : Collector) (ctx : types.ScrapeContext) : M (option error) :=
  pdh ← utils.PDHEnabled;
  if (pdh : bool) then collectPDH c
  else collect c ctx.

End dhcp.

(** ** The counter catalog of the specification

    The specification describes the collector through a catalog: one entry
    per counter, with the metric name, the help text, the kind, the field of
    the decoded record and the counter identifier of the direct lookup, in
    the order of emission.  The catalog is not a value of the program; the
    theorems compare what the program does with it. *)

Record Entry : Type := {
  metric : string;
  helpText : string;
  kind : prometheus.ValueType;
  field : dhcpPerf → float64;
  counter : string
}.

Section catalog.
Context `{!types.Decl, !Const}.

Definition Catalog : list Entry := [
  {| metric := "packets_received_total";
     helpText := "Total number of packets received by the DHCP server (PacketsReceivedTotal)";
     kind := prometheus.CounterValue; field := PacketsReceivedTotal; counter := packetsReceivedTotal |};
  {| metric := "duplicates_dropped_total";
     helpText := "Total number of duplicate packets received by the DHCP server (DuplicatesDroppedTotal)";
     kind := prometheus.CounterValue; field := DuplicatesDroppedTotal; counter := duplicatesDroppedTotal |};
  {| metric := "packets_expired_total";
     helpText := "Total number of packets expired in the DHCP server message queue (PacketsExpiredTotal)";
     kind := prometheus.CounterValue; field := PacketsExpiredTotal; counter := packetsExpiredTotal |};
  {| metric := "active_queue_length";
     helpText := "Number of packets in the processing queue of the DHCP server (ActiveQueueLength)";
     kind := prometheus.GaugeValue; field := ActiveQueueLength; counter := activeQueueLength |};
  {| metric := "conflict_check_queue_length";
     helpText := "Number of packets in the DHCP server queue waiting on conflict detection (ping). (ConflictCheckQueueLength)";
     kind := prometheus.GaugeValue; field := ConflictCheckQueueLength; counter := conflictCheckQueueLength |};
  {| metric := "discovers_total";
     helpText := "Total DHCP Discovers received by the DHCP server (DiscoversTotal)";
     kind := prometheus.CounterValue; field := DiscoversTotal; counter := discoversTotal |};
  {| metric := "offers_total";
     helpText := "Total DHCP Offers sent by the DHCP server (OffersTotal)";
     kind := prometheus.CounterValue; field := OffersTotal; counter := offersTotal |};
  {| metric := "requests_total";
     helpText := "Total DHCP Requests received by the DHCP server (RequestsTotal)";
     kind := prometheus.CounterValue; field := RequestsTotal; counter := requestsTotal |};
  {| metric := "informs_total";
     helpText := "Total DHCP Informs received by the DHCP server (InformsTotal)";
     kind := prometheus.CounterValue; field := InformsTotal; counter := informsTotal |};
  {| metric := "acks_total";
     helpText := "Total DHCP Acks sent by the DHCP server (AcksTotal)";
     kind := prometheus.CounterValue; field := AcksTotal; counter := acksTotal |};
  {| metric := "nacks_total";
     helpText := "Total DHCP Nacks sent by the DHCP server (NacksTotal)";
     kind := prometheus.CounterValue; field := NacksTotal; counter := nacksTotal |};
  {| metric := "declines_total";
     helpText := "Total DHCP Declines received by the DHCP server (DeclinesTotal)";
     kind := prometheus.CounterValue; field := DeclinesTotal; counter := declinesTotal |};
  {| metric := "releases_total";
     helpText := "Total DHCP Releases received by the DHCP server (ReleasesTotal)";
     kind := prometheus.CounterValue; field := ReleasesTotal; counter := releasesTotal |};
  {| metric := "offer_queue_length";
     helpText := "Number of packets in the offer queue of the DHCP server (OfferQueueLength)";
     kind := prometheus.GaugeValue; field := OfferQueueLength; counter := offerQueueLength |};
  {| metric := "denied_due_to_match_total";
     helpText := "Total number of DHCP requests denied, based on matches from the Deny list (DeniedDueToMatch)";
     kind := prometheus.CounterValue; field := DeniedDueToMatch; counter := deniedDueToMatch |};
  {| metric := "denied_due_to_nonmatch_total";
     helpText := "Total number of DHCP requests denied, based on non-matches from the Allow list (DeniedDueToNonMatch)";
     kind := prometheus.CounterValue; field := DeniedDueToNonMatch; counter := deniedDueToNonMatch |};
  {| metric := "failover_bndupd_sent_total";
     helpText := "Number of DHCP fail over Binding Update messages sent (FailoverBndupdSentTotal)";
     kind := prometheus.CounterValue; field := FailoverBndUpdSentTotal; counter := failoverBndUpdSentTotal |};
  {| metric := "failover_bndupd_received_total";
     helpText := "Number of DHCP fail over Binding Update messages received (FailoverBndupdReceivedTotal)";
     kind := prometheus.CounterValue; field := FailoverBndUpdReceivedTotal; counter := failoverBndUpdReceivedTotal |};
  {| metric := "failover_bndack_sent_total";
     helpText := "Number of DHCP fail over Binding Ack messages sent (FailoverBndackSentTotal)";
     kind := prometheus.CounterValue; field := FailoverBndAckSentTotal; counter := failoverBndAckSentTotal |};
  {| metric := "failover_bndack_received_total";
     helpText := "Number of DHCP fail over Binding Ack messages received (FailoverBndackReceivedTotal)";
     kind := prometheus.CounterValue; field := FailoverBndAckReceivedTotal; counter := failoverBndAckReceivedTotal |};
  {| metric := "failover_bndupd_pending_in_outbound_queue";
     helpText := "Number of pending outbound DHCP fail over Binding Update messages (FailoverBndupdPendingOutboundQueue)";
     kind := prometheus.GaugeValue; field := FailoverBndUpdPendingOutboundQueue; counter := failoverBndUpdPendingOutboundQueue |};
  {| metric := "failover_transitions_communicationinterrupted_state_total";
     helpText := "Total number of transitions into COMMUNICATION INTERRUPTED state (FailoverTransitionsCommunicationinterruptedState)";
     kind := prometheus.CounterValue; field := FailoverTransitionsCommunicationInterruptedState; counter := failoverTransitionsCommunicationInterruptedState |};
  {| metric := "failover_transitions_partnerdown_state_total";
     helpText := "Total number of transitions into PARTNER DOWN state (FailoverTransitionsPartnerdownState)";
     kind := prometheus.CounterValue; field := FailoverTransitionsPartnerDownState; counter := failoverTransitionsPartnerDownState |};
  {| metric := "failover_transitions_recover_total";
     helpText := "Total number of transitions into RECOVER state (FailoverTransitionsRecoverState)";
     kind := prometheus.CounterValue; field := FailoverTransitionsRecoverState; counter := failoverTransitionsRecoverState |};
  {| metric := "failover_bndupd_dropped_total";
     helpText := "Total number of DHCP fail over Binding Updates dropped (FailoverBndupdDropped)";
     kind := prometheus.CounterValue; field := FailoverBndUpdDropped; counter := failoverBndUpdDropped |}
].

(** The descriptor of an entry: [<namespace>_dhcp_<metric>] with the help
    text. *)
Definition descriptor (e : Entry) : prometheus.Desc :=
  prometheus.NewDesc (prometheus.BuildFQName types.Namespace Name (metric e)) (helpText e).

(** The sample of an entry for a raw value. *)
Definition sample (e : Entry) (v : float64) : prometheus.Metric :=
  {| prometheus.desc := descriptor e; prometheus.valType := kind e; prometheus.val := v |}.

End catalog.

(** ** Observations *)

(** The metrics sent to the channel during a call, in order. *)
Fixpoint sent (t : list Event) : list prometheus.Metric :=
  match t with
  | [] => []
  | EvSend m :: t' => m :: sent t'
  | _ :: t' => sent t'
  end.

(** How often the configuration switch was evaluated during a call. *)
Fixpoint switch_evaluations (t : list Event) : nat :=
  match t with
  | [] => 0
  | EvPDHEnabled _ :: t' => S (switch_evaluations t')
  | _ :: t' => switch_evaluations t'
  end.

(** The handles released during a call. *)
Fixpoint released (t : list Event) : list Handle :=
  match t with
  | [] => []
  | EvClose h :: t' => h :: released t'
  | _ :: t' => released t'
  end.

(** The descriptor fields of a collector, in the order of the catalog. *)
Definition descriptors (c : Collector) : list (option prometheus.Desc) := [
  Collector.packetsReceivedTotal c;
  Collector.duplicatesDroppedTotal c;
  Collector.packetsExpiredTotal c;
  Collector.activeQueueLength c;
  Collector.conflictCheckQueueLength c;
  Collector.discoversTotal c;
  Collector.offersTotal c;
  Collector.requestsTotal c;
  Collector.informsTotal c;
  Collector.acksTotal c;
  Collector.nACKsTotal c;
  Collector.declinesTotal c;
  Collector.releasesTotal c;
  Collector.offerQueueLength c;
  Collector.deniedDueToMatch c;
  Collector.deniedDueToNonMatch c;
  Collector.failoverBndUpdSentTotal c;
  Collector.failoverBndUpdReceivedTotal c;
  Collector.failoverBndAckSentTotal c;
  Collector.failoverBndAckReceivedTotal c;
  Collector.failoverBndUpdPendingOutboundQueue c;
  Collector.failoverTransitionsCommunicationInterruptedState c;
  Collector.failoverTransitionsPartnerDownState c;
  Collector.failoverTransitionsRecoverState c;
  Collector.failoverBndUpdDropped c
].

(** The record and the value map of the singleton instance hold the same
    counter values. *)
Definition same_values `{!Const} (r : dhcpPerf)
    (data : gmap string perftypes.CounterValues) : Prop :=
  PacketsReceivedTotal r = perftypes.FirstValue data.[packetsReceivedTotal] ∧
  DuplicatesDroppedTotal r = perftypes.FirstValue data.[duplicatesDroppedTotal] ∧
  PacketsExpiredTotal r = perftypes.FirstValue data.[packetsExpiredTotal] ∧
  ActiveQueueLength r = perftypes.FirstValue data.[activeQueueLength] ∧
  ConflictCheckQueueLength r = perftypes.FirstValue data.[conflictCheckQueueLength] ∧
  DiscoversTotal r = perftypes.FirstValue data.[discoversTotal] ∧
  OffersTotal r = perftypes.FirstValue data.[offersTotal] ∧
  RequestsTotal r = perftypes.FirstValue data.[requestsTotal] ∧
  InformsTotal r = perftypes.FirstValue data.[informsTotal] ∧
  AcksTotal r = perftypes.FirstValue data.[acksTotal] ∧
  NacksTotal r = perftypes.FirstValue data.[nacksTotal] ∧
  DeclinesTotal r = perftypes.FirstValue data.[declinesTotal] ∧
  ReleasesTotal r = perftypes.FirstValue data.[releasesTotal] ∧
  OfferQueueLength r = perftypes.FirstValue data.[offerQueueLength] ∧
  DeniedDueToMatch r = perftypes.FirstValue data.[deniedDueToMatch] ∧
  DeniedDueToNonMatch r = perftypes.FirstValue data.[deniedDueToNonMatch] ∧
  FailoverBndUpdSentTotal r = perftypes.FirstValue data.[failoverBndUpdSentTotal] ∧
  FailoverBndUpdReceivedTotal r = perftypes.FirstValue data.[failoverBndUpdReceivedTotal] ∧
  FailoverBndAckSentTotal r = perftypes.FirstValue data.[failoverBndAckSentTotal] ∧
  FailoverBndAckReceivedTotal r = perftypes.FirstValue data.[failoverBndAckReceivedTotal] ∧
  FailoverBndUpdPendingOutboundQueue r = perftypes.FirstValue data.[failoverBndUpdPendingOutboundQueue] ∧
  FailoverTransitionsCommunicationInterruptedState r = perftypes.FirstValue data.[failoverTransitionsCommunicationInterruptedState] ∧
  FailoverTransitionsPartnerDownState r = perftypes.FirstValue data.[failoverTransitionsPartnerDownState] ∧
  FailoverTransitionsRecoverState r = perftypes.FirstValue data.[failoverTransitionsRecoverState] ∧
  FailoverBndUpdDropped r = perftypes.FirstValue data.[failoverBndUpdDropped].

(** ** The emission sequence as a fold

    Both acquisition paths end in a sequence of sends, each of an operand
    that may panic.  The sequence is the fold of its operands; what it
    delivers and how it ends is a function of the operands. *)

Definition send_all {A : Type} (operands : list (Res prometheus.Metric)) (k : M A) : M A :=
  foldr (λ e k, ch <~ e;; k) k operands.

(** The metrics sent before the first panic. *)
Fixpoint delivered (operands : list (Res prometheus.Metric)) : list prometheus.Metric :=
  match operands with
  | Done m :: operands' => m :: delivered operands'
  | _ => []
  end.

Fixpoint first_panic (operands : list (Res prometheus.Metric)) : option PanicValue :=
  match operands with
  | [] => None
  | Done _ :: operands' => first_panic operands'
  | Panicked p :: _ => Some p
  end.

Section operands.
Context `{!types.Decl, !Const}.

(** The operands of the sends of [collect], for the decoded records. *)
Definition collect_operands (c : Collector) (dhcpPerfs : list dhcpPerf)
    : list (Res prometheus.Metric) :=
  zip_with (λ d e, v ← field e <$> index dhcpPerfs 0;
                   prometheus.MustNewConstMetric d (kind e) v)
    (descriptors c) Catalog.

(** The operands of the sends of [collectPDH], for the value map of the
    singleton instance. *)
Definition collectPDH_operands (c : Collector)
    (data : gmap string perftypes.CounterValues) : list (Res prometheus.Metric) :=
  zip_with (λ d e, prometheus.MustNewConstMetric d (kind e)
                     (perftypes.FirstValue data.[counter e]))
    (descriptors c) Catalog.

(** The collector holds the descriptors of the catalog. *)
Definition has_descriptors (c : Collector) : Prop :=
  descriptors c = map (λ e, Some (descriptor e)) Catalog.

(** The raw inputs of the two paths hold the same counter values: a first
    record and a singleton instance with the same values, or neither. *)
Definition same_raw `{!perftypes.Decl} (dhcpPerfs : list dhcpPerf)
    (perfData : gmap string (gmap string perftypes.CounterValues)) : Prop :=
  match dhcpPerfs, perfData !! perftypes.EmptyInstance with
  | r :: _, Some data => same_values r data
  | [], None => True
  | _, _ => False
  end.

End operands.

(** ** A host to run the collector on

    Values for the constants and a decoder, two worlds (one per setting of
    the switch) and raw inputs holding the same counter values in both
    forms.  The theorems do not depend on them; they serve as the inputs at
    which the theorems are applied and at which behaviours are shown. *)

Module Sample.

#[export] Instance types_decl : types.Decl :=
  {| types.Namespace := "windows" |}.

#[export] Instance perftypes_decl : perftypes.Decl :=
  {| perftypes.EmptyInstance := "------" |}.

#[export] Instance perfdata_decl : perfdata.Decl :=
  {| perfdata.Engine := unit; perfdata.V1 := tt; perfdata.AllInstances := ["*"] |}.

(** A snapshot is the list of its instances, one record each; the nil
    object does not decode. *)
#[export] Instance v1_decl : v1.Decl :=
  {| v1.PerfObject := list dhcpPerf;
     v1.UnmarshalObject := λ obj,
       match obj with
       | None => ([], Some "counter not found")
       | Some instances => (instances, None)
       end |}.

#[export] Instance const : Const := {|
  acksTotal := "Acks/sec";
  activeQueueLength := "Active Queue Length";
  conflictCheckQueueLength := "Conflict Check Queue Length";
  declinesTotal := "Declines/sec";
  deniedDueToMatch := "Denied due to match.";
  deniedDueToNonMatch := "Denied due to nonmatch.";
  discoversTotal := "Discovers/sec";
  duplicatesDroppedTotal := "Duplicates Dropped/sec";
  failoverBndAckReceivedTotal := "Failover: BndAck received/sec.";
  failoverBndAckSentTotal := "Failover: BndAck sent/sec.";
  failoverBndUpdDropped := "Failover: BndUpd Dropped.";
  failoverBndUpdPendingOutboundQueue := "Failover: BndUpd pending in outbound queue.";
  failoverBndUpdReceivedTotal := "Failover: BndUpd received/sec.";
  failoverBndUpdSentTotal := "Failover: BndUpd sent/sec.";
  failoverTransitionsCommunicationInterruptedState := "Failover: Transitions to COMMUNICATION-INTERRUPTED state.";
  failoverTransitionsPartnerDownState := "Failover: Transitions to PARTNER-DOWN state.";
  failoverTransitionsRecoverState := "Failover: Transitions to RECOVER state.";
  informsTotal := "Informs/sec";
  nacksTotal := "Nacks/sec";
  offerQueueLength := "Offer Queue Length";
  offersTotal := "Offers/sec";
  packetsExpiredTotal := "Packets Expired/sec";
  packetsReceivedTotal := "Packets Received/sec";
  releasesTotal := "Releases/sec";
  requestsTotal := "Requests/sec"
|}.

Definition record : dhcpPerf := {|
  PacketsReceivedTotal := float64_of_Z 42;
  DuplicatesDroppedTotal := float64_of_Z 1;
  PacketsExpiredTotal := float64_of_Z 2;
  ActiveQueueLength := float64_of_Z 3;
  ConflictCheckQueueLength := float64_of_Z 4;
  DiscoversTotal := float64_of_Z 5;
  OffersTotal := float64_of_Z 6;
  RequestsTotal := float64_of_Z 7;
  InformsTotal := float64_of_Z 8;
  AcksTotal := float64_of_Z 9;
  NacksTotal := float64_of_Z 10;
  DeclinesTotal := float64_of_Z 11;
  ReleasesTotal := float64_of_Z 12;
  OfferQueueLength := float64_of_Z 13;
  DeniedDueToMatch := float64_of_Z 14;
  DeniedDueToNonMatch := float64_of_Z 15;
  FailoverBndUpdSentTotal := float64_of_Z 16;
  FailoverBndUpdReceivedTotal := float64_of_Z 17;
  FailoverBndAckSentTotal := float64_of_Z 18;
  FailoverBndAckReceivedTotal := float64_of_Z 19;
  FailoverBndUpdPendingOutboundQueue := float64_of_Z 20;
  FailoverTransitionsCommunicationInterruptedState := float64_of_Z 21;
  FailoverTransitionsPartnerDownState := float64_of_Z 22;
  FailoverTransitionsRecoverState := float64_of_Z 23;
  FailoverBndUpdDropped := float64_of_Z 24
|}.

Definition values (v : Z) : perftypes.CounterValues :=
  {| perftypes.FirstValue := float64_of_Z v; perftypes.SecondValue := float64_zero |}.

(** The value map with the values of [record]. *)
Definition data : gmap string perftypes.CounterValues :=
  list_to_map [
    (packetsReceivedTotal, values 42);
    (duplicatesDroppedTotal, values 1);
    (packetsExpiredTotal, values 2);
    (activeQueueLength, values 3);
    (conflictCheckQueueLength, values 4);
    (discoversTotal, values 5);
    (offersTotal, values 6);
    (requestsTotal, values 7);
    (informsTotal, values 8);
    (acksTotal, values 9);
    (nacksTotal, values 10);
    (declinesTotal, values 11);
    (releasesTotal, values 12);
    (offerQueueLength, values 13);
    (deniedDueToMatch, values 14);
    (deniedDueToNonMatch, values 15);
    (failoverBndUpdSentTotal, values 16);
    (failoverBndUpdReceivedTotal, values 17);
    (failoverBndAckSentTotal, values 18);
    (failoverBndAckReceivedTotal, values 19);
    (failoverBndUpdPendingOutboundQueue, values 20);
    (failoverTransitionsCommunicationInterruptedState, values 21);
    (failoverTransitionsPartnerDownState, values 22);
    (failoverTransitionsRecoverState, values 23);
    (failoverBndUpdDropped, values 24)
  ].

(** A value map in which only one counter is present. *)
Definition data_one : gmap string perftypes.CounterValues :=
  {[ packetsReceivedTotal := values 42 ]}.

(** Results of a collection through the handle: the singleton instance
    with the values of [record], the singleton instance with one counter
    only, and a result without the singleton instance. *)
Definition perfData : gmap string (gmap string perftypes.CounterValues) :=
  {[ perftypes.EmptyInstance := data ]}.

Definition perfData_one : gmap string (gmap string perftypes.CounterValues) :=
  {[ perftypes.EmptyInstance := data_one ]}.

Definition perfData_other : gmap string (gmap string perftypes.CounterValues) :=
  {[ "scope" := data ]}.

Definition ctx_of (instances : list dhcpPerf) : types.ScrapeContext :=
  {| types.PerfObjects := {[ "DHCP Server" := instances ]} |}.

Definition handle : Handle := PdhQuery 1.

(** The switch is off; no handle can be made. *)
Definition legacy_world : World :=
  {| pdhEnabled := false;
     newCollector := λ _ _ _, (None, Some "PDH is not available");
     handleCollect := λ _, (∅, Some "invalid handle") |}.

(** The switch is on; [handle] is made, and a collection through it
    answers [perfData]. *)
Definition pdh_world (perfData : gmap string (gmap string perftypes.CounterValues)) : World :=
  {| pdhEnabled := true;
     newCollector := λ _ _ _, (Some handle, None);
     handleCollect := λ _, (perfData, None) |}.

(** The collector after [Build] in a world. *)
Definition built (w : World) : Collector :=
  match Build (New None) w with
  | (_, Done (c, _)) => c
  | (_, Panicked _) => New None
  end.

End Sample.

(** ** Further observations and inputs *)

(** The calls a method makes about query handles, in order: creations,
    collections and releases. *)
Fixpoint handle_calls (t : list Event) : list Event :=
  match t with
  | [] => []
  | EvPDHEnabled _ :: t' => handle_calls t'
  | EvSend _ :: t' => handle_calls t'
  | ev :: t' => ev :: handle_calls t'
  end.

Section requested.
Context `{!Const}.

(** The counters [Build] asks a query handle for: the slice literal
    [counters] of the source, in its order. *)
Definition requested_counters : list string := [
  acksTotal;
  activeQueueLength;
  conflictCheckQueueLength;
  declinesTotal;
  deniedDueToMatch;
  deniedDueToNonMatch;
  discoversTotal;
  duplicatesDroppedTotal;
  failoverBndAckReceivedTotal;
  failoverBndAckSentTotal;
  failoverBndUpdDropped;
  failoverBndUpdPendingOutboundQueue;
  failoverBndUpdReceivedTotal;
  failoverBndUpdSentTotal;
  failoverTransitionsCommunicationInterruptedState;
  failoverTransitionsPartnerDownState;
  failoverTransitionsRecoverState;
  informsTotal;
  nacksTotal;
  offerQueueLength;
  offersTotal;
  packetsExpiredTotal;
  packetsReceivedTotal;
  releasesTotal;
  requestsTotal
].

End requested.

Module SampleMore.
Import Sample.

(** A second instance, with other values than [record]. *)
Definition record2 : dhcpPerf := {|
  PacketsReceivedTotal := float64_of_Z 1000;
  DuplicatesDroppedTotal := float64_of_Z 1001;
  PacketsExpiredTotal := float64_of_Z 1002;
  ActiveQueueLength := float64_of_Z 1003;
  ConflictCheckQueueLength := float64_of_Z 1004;
  DiscoversTotal := float64_of_Z 1005;
  OffersTotal := float64_of_Z 1006;
  RequestsTotal := float64_of_Z 1007;
  InformsTotal := float64_of_Z 1008;
  AcksTotal := float64_of_Z 1009;
  NacksTotal := float64_of_Z 1010;
  DeclinesTotal := float64_of_Z 1011;
  ReleasesTotal := float64_of_Z 1012;
  OfferQueueLength := float64_of_Z 1013;
  DeniedDueToMatch := float64_of_Z 1014;
  DeniedDueToNonMatch := float64_of_Z 1015;
  FailoverBndUpdSentTotal := float64_of_Z 1016;
  FailoverBndUpdReceivedTotal := float64_of_Z 1017;
  FailoverBndAckSentTotal := float64_of_Z 1018;
  FailoverBndAckReceivedTotal := float64_of_Z 1019;
  FailoverBndUpdPendingOutboundQueue := float64_of_Z 1020;
  FailoverTransitionsCommunicationInterruptedState := float64_of_Z 1021;
  FailoverTransitionsPartnerDownState := float64_of_Z 1022;
  FailoverTransitionsRecoverState := float64_of_Z 1023;
  FailoverBndUpdDropped := float64_of_Z 1024
|}.

(** The values of [data] with other second values and one counter more. *)
Definition data_noisy : gmap string perftypes.CounterValues :=
  <[ "Scope Count" := values 9 ]>
    ((λ cv, {| perftypes.FirstValue := perftypes.FirstValue cv;
               perftypes.SecondValue := float64_of_Z 7 |}) <$> data).

(** A result with the singleton instance and a further instance. *)
Definition perfData_noisy : gmap string (gmap string perftypes.CounterValues) :=
  {[ perftypes.EmptyInstance := data_noisy; "scope" := data_one ]}.

(** A scrape context without any snapshot. *)
Definition ctx_none : types.ScrapeContext :=
  {| types.PerfObjects := ∅ |}.

(** A scrape context with the snapshot of a further object. *)
Definition ctx_two (instances : list dhcpPerf) : types.ScrapeContext :=
  {| types.PerfObjects := {[ "DHCP Server" := instances; "DNS" := [record2] ]} |}.

(** The switch is on; the handle cannot be made. *)
Definition pdh_world_unavailable : World :=
  {| pdhEnabled := true;
     newCollector := λ _ _ _, (None, Some "object not found");
     handleCollect := λ _, (∅, Some "invalid handle") |}.

(** The switch is on; a collection through the handle fails. *)
Definition pdh_world_failing : World :=
  {| pdhEnabled := true;
     newCollector := λ _ _ _, (Some handle, None);
     handleCollect := λ _, (perfData, Some "access denied") |}.

End SampleMore.

(** * Properties *)

(** ** Metric names *)

Lemma allNameChars_app (s1 s2 : string) :
  prometheus.allNameChars s1 = true →
  prometheus.allNameChars s2 = true →
  prometheus.allNameChars (s1 +:+ s2) = true.
Proof.
  intros H1 H2.
  induction s1 as [|a s1 IH]; simpl in *; [done|].
  apply andb_true_iff in H1 as [Ha H1]. rewrite Ha. simpl. auto.
Qed.

Lemma IsValidMetricName_app (s1 s2 : string) :
  prometheus.IsValidMetricName s1 = true →
  prometheus.allNameChars s2 = true →
  prometheus.IsValidMetricName (s1 +:+ s2) = true.
Proof.
  destruct s1 as [|a s1]; simpl; [done|].
  intros [Ha H1]%andb_true_iff H2. rewrite Ha. simpl.
  by apply allNameChars_app.
Qed.

Lemma IsValidMetricName_nonempty (s : string) :
  prometheus.IsValidMetricName s = true → s ≠ EmptyString.
Proof. by destruct s. Qed.

(** With a non-empty namespace and the component name, a non-empty metric
    name is joined to both by underscores. *)
Lemma BuildFQName_joined (namespace name : string) :
  namespace ≠ EmptyString →
  name ≠ EmptyString →
  prometheus.BuildFQName namespace Name name
  = namespace +:+ "_" +:+ Name +:+ "_" +:+ name.
Proof.
  intros Hns Hname. unfold prometheus.BuildFQName.
  rewrite (bool_decide_eq_false_2 _ Hname).
  by rewrite (bool_decide_eq_true_2 _ Hns).
Qed.

Lemma NewDesc_ok (namespace name help : string) :
  prometheus.IsValidMetricName namespace = true →
  name ≠ EmptyString →
  prometheus.allNameChars name = true →
  prometheus.err (prometheus.NewDesc (prometheus.BuildFQName namespace Name name) help) = None.
Proof.
  intros Hns Hname Hchars. unfold prometheus.NewDesc. cbn [prometheus.err].
  rewrite BuildFQName_joined by first [done | by apply IsValidMetricName_nonempty].
  rewrite IsValidMetricName_app; [done|done|].
  by apply (allNameChars_app "_dhcp_").
Qed.

(** ** Operands and sends *)

Lemma MustNewConstMetric_ok (d : prometheus.Desc) (k : prometheus.ValueType) (v : float64) :
  prometheus.err d = None →
  prometheus.MustNewConstMetric (Some d) k v
  = Done {| prometheus.desc := d; prometheus.valType := k; prometheus.val := v |}.
Proof. intros Hd. cbv -[prometheus.err]. by rewrite Hd. Qed.

Lemma MustNewConstMetric_Done (d : option prometheus.Desc) (k : prometheus.ValueType)
    (v : float64) (m : prometheus.Metric) :
  prometheus.MustNewConstMetric d k v = Done m →
  d = Some (prometheus.desc m) ∧ prometheus.err (prometheus.desc m) = None ∧
  prometheus.valType m = k ∧ prometheus.val m = v.
Proof.
  destruct d as [d|]; cbv -[prometheus.err]; [|done].
  destruct (prometheus.err d) eqn:Hd; [done|].
  by intros [= <-].
Qed.

Lemma sent_sends (ms : list prometheus.Metric) : sent (map EvSend ms) = ms.
Proof. induction ms as [|m ms IH]; cbn; by rewrite ?IH. Qed.

Lemma switch_evaluations_sends (ms : list prometheus.Metric) :
  switch_evaluations (map EvSend ms) = 0.
Proof. by induction ms. Qed.

Lemma released_sends (ms : list prometheus.Metric) : released (map EvSend ms) = [].
Proof. by induction ms. Qed.

(** A sequence of sends delivers its operands up to the first panic, and
    ends in that panic or goes on. *)
Lemma send_all_run {A : Type} (operands : list (Res prometheus.Metric)) (a : A) (w : World) :
  send_all operands (mret a) w
  = (map EvSend (delivered operands),
     match first_panic operands with
     | None => Done a
     | Some p => Panicked p
     end).
Proof.
  induction operands as [|[m|p] operands IH]; [done| |done].
  change (send_all (Done m :: operands) (mret a) w)
    with (let '(t', r) := send_all operands (mret a) w in (EvSend m :: t', r)).
  by rewrite IH.
Qed.

Lemma delivered_Done {A : Type} (f : A → prometheus.Metric) (l : list A) :
  delivered (map (λ a, Done (f a)) l) = map f l.
Proof. induction l as [|a l IH]; cbn; by rewrite ?IH. Qed.

Lemma first_panic_Done {A : Type} (f : A → prometheus.Metric) (l : list A) :
  first_panic (map (λ a, Done (f a)) l) = None.
Proof. by induction l. Qed.

(** Without a panic every operand is delivered, and is the metric of its
    operand. *)
Lemma first_panic_None (operands : list (Res prometheus.Metric)) :
  first_panic operands = None → operands = map Done (delivered operands).
Proof.
  induction operands as [|[m|p] operands IH]; cbn; [done| |done].
  intros H. by rewrite <- IH.
Qed.

Section properties.
Context `{!types.Decl, !perftypes.Decl, !perfdata.Decl, !v1.Decl, !Const}.

(** ** The two paths as sequences of sends *)

(** [collect] decodes the snapshot and sends its operands. *)
Lemma collect_unfold (c : Collector) (ctx : types.ScrapeContext) (w : World) :
  collect c ctx w =
  match v1.UnmarshalObject (types.PerfObjects ctx !! "DHCP Server") with
  | (_, Some err) => ([], Done (Some err))
  | (dhcpPerfs, None) => send_all (collect_operands c dhcpPerfs) (mret None) w
  end.
Proof. unfold collect. by destruct (v1.UnmarshalObject _) as [? [?|]]. Qed.

(** [collectPDH] collects through the handle, looks the singleton instance
    up and sends its operands. *)
Lemma collectPDH_unfold (c : Collector) (w : World) :
  collectPDH c w =
  match Collector.perfDataCollector c with
  | None => ([], Panicked NilDereference)
  | Some h =>
      match handleCollect w h with
      | (_, Some err) =>
          ([EvCollect h],
           Done (Some (fmt.Errorf "failed to collect DHCP Server metrics: %w" err)))
      | (perfData, None) =>
          match perfData !! perftypes.EmptyInstance with
          | None =>
              ([EvCollect h],
               Done (Some (errors.New "perflib query for DHCP Server returned empty result set")))
          | Some data =>
              let '(t, r) := send_all (collectPDH_operands c data) (mret None) w in
              (EvCollect h :: t, r)
          end
      end
  end.
Proof.
  unfold collectPDH, mbind at 1, M_bind, perfdata.Collect.
  destruct (Collector.perfDataCollector c) as [h|]; [|done].
  destruct (handleCollect w h) as [perfData [err|]]; [done|].
  cbn [app]. by destruct (perfData !! perftypes.EmptyInstance).
Qed.

(** Without a record the first operand of [collect] panics on the index. *)
Lemma collect_operands_nil (c : Collector) :
  delivered (collect_operands c []) = [] ∧
  first_panic (collect_operands c []) = Some (IndexOutOfRange 0 0).
Proof. done. Qed.

Lemma collect_operands_nil_run {A : Type} (c : Collector) (a : A) (w : World) :
  send_all (collect_operands c []) (mret a) w = ([], Panicked (IndexOutOfRange 0 0)).
Proof. by rewrite send_all_run. Qed.

(** With a record, the operands of [collect] are those of [collectPDH] for
    a value map with the same values. *)
Lemma collect_operands_same (c : Collector) (r : dhcpPerf) (rest : list dhcpPerf)
    (data : gmap string perftypes.CounterValues) :
  same_values r data →
  collect_operands c (r :: rest) = collectPDH_operands c data.
Proof.
  unfold same_values. intros Hsame. unfold collect_operands, collectPDH_operands.
  cbn [descriptors Catalog zip_with field kind counter].
  cbv [mbind Res_bind fmap Res_fmap index]. cbn [lookup list_lookup].
  repeat match goal with Hv : _ ∧ _ |- _ => destruct Hv as [-> ?] end.
  by match goal with Hv : _ = _ |- _ => rewrite Hv end.
Qed.

(** [Collect] asks the switch and runs the path it names. *)
Lemma Collect_unfold (c : Collector) (ctx : types.ScrapeContext) (w : World) :
  Collect c ctx w =
  let '(t, r) := if pdhEnabled w then collectPDH c w else collect c ctx w in
  (EvPDHEnabled (pdhEnabled w) :: t, r).
Proof.
  unfold Collect, mbind at 1, M_bind, utils.PDHEnabled. by destruct (pdhEnabled w).
Qed.

(** ** Descriptors *)

Lemma Catalog_names :
  Forall (λ e, metric e ≠ EmptyString ∧ prometheus.allNameChars (metric e) = true) Catalog.
Proof. repeat (constructor; [done|]). constructor. Qed.

Lemma descriptor_ok (e : Entry) :
  prometheus.IsValidMetricName types.Namespace = true →
  e ∈ Catalog →
  prometheus.err (descriptor e) = None.
Proof.
  intros Hns He. pose proof Catalog_names as Hnames.
  rewrite Forall_forall in Hnames. destruct (Hnames e He) as [Hne Hchars].
  by apply NewDesc_ok.
Qed.

Lemma descriptor_fqName (e : Entry) :
  prometheus.IsValidMetricName types.Namespace = true →
  e ∈ Catalog →
  prometheus.fqName (descriptor e) = types.Namespace +:+ "_dhcp_" +:+ metric e.
Proof.
  intros Hns He. pose proof Catalog_names as Hnames.
  rewrite Forall_forall in Hnames. destruct (Hnames e He) as [Hne Hchars].
  unfold descriptor, prometheus.NewDesc. cbn [prometheus.fqName].
  by rewrite BuildFQName_joined by first [done | by apply IsValidMetricName_nonempty].
Qed.

(** [Build] never panics. *)
Lemma Build_total (c0 : Collector) (w : World) :
  ∃ t c err, Build c0 w = (t, Done (c, err)).
Proof.
  unfold Build, mbind, M_bind, utils.PDHEnabled, perfdata.NewCollector.
  destruct (pdhEnabled w); [|by eexists _, _, _].
  destruct (newCollector w _ _ _) as [p [err|]]; by eexists _, _, _.
Qed.

(** After a [Build] without error the collector holds the descriptors of
    the catalog; the handle is the one made under the switch, or the one
    it had. *)
Lemma Build_ok (c0 c : Collector) (w : World) (t : list Event) :
  Build c0 w = (t, Done (c, None)) →
  has_descriptors c ∧
  Collector.perfDataCollector c =
    (if pdhEnabled w
     then (newCollector w "DHCP Server" perfdata.AllInstances
             [acksTotal; activeQueueLength; conflictCheckQueueLength; declinesTotal;
              deniedDueToMatch; deniedDueToNonMatch; discoversTotal;
              duplicatesDroppedTotal; failoverBndAckReceivedTotal;
              failoverBndAckSentTotal; failoverBndUpdDropped;
              failoverBndUpdPendingOutboundQueue; failoverBndUpdReceivedTotal;
              failoverBndUpdSentTotal; failoverTransitionsCommunicationInterruptedState;
              failoverTransitionsPartnerDownState; failoverTransitionsRecoverState;
              informsTotal; nacksTotal; offerQueueLength; offersTotal;
              packetsExpiredTotal; packetsReceivedTotal; releasesTotal;
              requestsTotal]).1
     else Collector.perfDataCollector c0).
Proof.
  unfold Build, mbind, M_bind, utils.PDHEnabled, perfdata.NewCollector.
  destruct (pdhEnabled w).
  - destruct (newCollector w _ _ _) as [p [err|]]; [done|].
    by intros [= <- <-].
  - by intros [= <- <-].
Qed.

(** The switch is evaluated once in every [Build]. *)
Lemma Build_switch (c0 : Collector) (w : World) :
  switch_evaluations (Build c0 w).1 = 1.
Proof.
  unfold Build, mbind, M_bind, utils.PDHEnabled, perfdata.NewCollector.
  destruct (pdhEnabled w); [|done].
  by destruct (newCollector w _ _ _) as [p [err|]].
Qed.

(** ** Operands of a built collector *)

Lemma operands_of_descriptors (v : Entry → float64) (l : list Entry) :
  Forall (λ e, prometheus.err (descriptor e) = None) l →
  zip_with (λ d e, prometheus.MustNewConstMetric d (kind e) (v e))
    (map (λ e, Some (descriptor e)) l) l
  = map (λ e, Done (sample e (v e))) l.
Proof.
  induction 1 as [|e l He _ IH]; [done|].
  cbn [map zip_with]. by rewrite IH, MustNewConstMetric_ok.
Qed.

Lemma Catalog_descriptors_ok :
  prometheus.IsValidMetricName types.Namespace = true →
  Forall (λ e, prometheus.err (descriptor e) = None) Catalog.
Proof. intros Hns. apply Forall_forall. intros e He. by apply descriptor_ok. Qed.

Lemma collectPDH_operands_built (c : Collector)
    (data : gmap string perftypes.CounterValues) :
  prometheus.IsValidMetricName types.Namespace = true →
  has_descriptors c →
  collectPDH_operands c data
  = map (λ e, Done (sample e (perftypes.FirstValue data.[counter e]))) Catalog.
Proof.
  intros Hns Hc. unfold collectPDH_operands. rewrite Hc.
  by apply operands_of_descriptors, Catalog_descriptors_ok.
Qed.

Lemma collect_operands_built (c : Collector) (r : dhcpPerf) (rest : list dhcpPerf) :
  prometheus.IsValidMetricName types.Namespace = true →
  has_descriptors c →
  collect_operands c (r :: rest) = map (λ e, Done (sample e (field e r))) Catalog.
Proof.
  intros Hns Hc.
  change (collect_operands c (r :: rest))
    with (zip_with (λ d e, prometheus.MustNewConstMetric d (kind e) (field e r))
            (descriptors c) Catalog).
  rewrite Hc. by apply operands_of_descriptors, Catalog_descriptors_ok.
Qed.

(** ** Outcomes of the two paths on a built collector *)

(** A decoded first record: [collect] sends the sample of every catalog
    entry for the field of the record, in order, and returns nil. *)
Lemma collect_record (c : Collector) (ctx : types.ScrapeContext) (w : World)
    (r : dhcpPerf) (rest : list dhcpPerf) :
  prometheus.IsValidMetricName types.Namespace = true →
  has_descriptors c →
  v1.UnmarshalObject (types.PerfObjects ctx !! "DHCP Server") = (r :: rest, None) →
  collect c ctx w
  = (map EvSend (map (λ e, sample e (field e r)) Catalog), Done None).
Proof.
  intros Hns Hc Hdec. rewrite collect_unfold, Hdec, send_all_run.
  rewrite collect_operands_built by done.
  by rewrite delivered_Done, first_panic_Done.
Qed.

(** No record: [collect] panics on the index before anything is sent. *)
Lemma collect_no_record (c : Collector) (ctx : types.ScrapeContext) (w : World) :
  v1.UnmarshalObject (types.PerfObjects ctx !! "DHCP Server") = ([], None) →
  collect c ctx w = ([], Panicked (IndexOutOfRange 0 0)).
Proof. intros Hdec. by rewrite collect_unfold, Hdec, collect_operands_nil_run. Qed.

(** A decode error is returned before anything is sent. *)
Lemma collect_decode_error (c : Collector) (ctx : types.ScrapeContext) (w : World)
    (dhcpPerfs : list dhcpPerf) (err : error) :
  v1.UnmarshalObject (types.PerfObjects ctx !! "DHCP Server") = (dhcpPerfs, Some err) →
  collect c ctx w = ([], Done (Some err)).
Proof. intros Hdec. by rewrite collect_unfold, Hdec. Qed.

(** The singleton instance is present: [collectPDH] sends the sample of
    every catalog entry for the first value of its counter, in order, and
    returns nil. *)
Lemma collectPDH_instance (c : Collector) (w : World) (h : Handle)
    (perfData : gmap string (gmap string perftypes.CounterValues))
    (data : gmap string perftypes.CounterValues) :
  prometheus.IsValidMetricName types.Namespace = true →
  has_descriptors c →
  Collector.perfDataCollector c = Some h →
  handleCollect w h = (perfData, None) →
  perfData !! perftypes.EmptyInstance = Some data →
  collectPDH c w
  = (EvCollect h ::
       map EvSend (map (λ e, sample e (perftypes.FirstValue data.[counter e])) Catalog),
     Done None).
Proof.
  intros Hns Hc Hh Hcollect Hdata.
  rewrite collectPDH_unfold, Hh, Hcollect, Hdata, send_all_run.
  rewrite collectPDH_operands_built by done.
  by rewrite delivered_Done, first_panic_Done.
Qed.

(** The singleton instance is absent: [collectPDH] returns an error and
    sends nothing. *)
Lemma collectPDH_no_instance (c : Collector) (w : World) (h : Handle)
    (perfData : gmap string (gmap string perftypes.CounterValues)) :
  Collector.perfDataCollector c = Some h →
  handleCollect w h = (perfData, None) →
  perfData !! perftypes.EmptyInstance = None →
  collectPDH c w
  = ([EvCollect h],
     Done (Some "perflib query for DHCP Server returned empty result set")).
Proof. intros Hh Hcollect Hdata. by rewrite collectPDH_unfold, Hh, Hcollect, Hdata. Qed.

(** What a pass that returns nil has sent: one sample per catalog entry,
    in order, each of the descriptor and the kind of its entry. *)
Lemma operands_success (v : Entry → float64) (l : list Entry)
    (ms : list prometheus.Metric) :
  zip_with (λ d e, prometheus.MustNewConstMetric d (kind e) (v e))
    (map (λ e, Some (descriptor e)) l) l
  = map Done ms →
  ms = map (λ e, sample e (v e)) l.
Proof.
  revert ms. induction l as [|e l IH]; intros [|m ms]; cbn [map zip_with]; try done.
  intros [= Hm Hms]. apply MustNewConstMetric_Done in Hm as ([= Hd] & _ & Hk & Hv).
  f_equal; [|by apply IH].
  destruct m. cbn in *. by subst.
Qed.

Lemma collect_success (c : Collector) (ctx : types.ScrapeContext) (w : World)
    (t : list Event) :
  has_descriptors c →
  collect c ctx w = (t, Done None) →
  ∃ r rest, v1.UnmarshalObject (types.PerfObjects ctx !! "DHCP Server") = (r :: rest, None) ∧
            t = map EvSend (map (λ e, sample e (field e r)) Catalog).
Proof.
  intros Hc. rewrite collect_unfold.
  destruct (v1.UnmarshalObject _) as [[|r rest] [err|]]; [done| |done|].
  { by rewrite collect_operands_nil_run. }
  rewrite send_all_run.
  assert (Hops : collect_operands c (r :: rest)
    = zip_with (λ d e, prometheus.MustNewConstMetric d (kind e) (field e r))
        (map (λ e, Some (descriptor e)) Catalog) Catalog) by (by rewrite <- Hc).
  destruct (first_panic _) eqn:Hp; [done|].
  apply first_panic_None in Hp. rewrite Hops in Hp at 1.
  apply operands_success in Hp. rewrite Hp.
  intros Hrun. injection Hrun as <-. by exists r, rest.
Qed.

Lemma collectPDH_success (c : Collector) (w : World) (t : list Event) :
  has_descriptors c →
  collectPDH c w = (t, Done None) →
  ∃ h perfData data,
    Collector.perfDataCollector c = Some h ∧
    handleCollect w h = (perfData, None) ∧
    perfData !! perftypes.EmptyInstance = Some data ∧
    t = EvCollect h ::
          map EvSend (map (λ e, sample e (perftypes.FirstValue data.[counter e])) Catalog).
Proof.
  intros Hc. rewrite collectPDH_unfold.
  destruct (Collector.perfDataCollector c) as [h|]; [|done].
  destruct (handleCollect w h) as [perfData [err|]] eqn:Hcollect; [done|].
  destruct (perfData !! perftypes.EmptyInstance) as [data|] eqn:Hdata; [|done].
  rewrite send_all_run.
  assert (Hops : collectPDH_operands c data
    = zip_with (λ d e, prometheus.MustNewConstMetric d (kind e)
                         (perftypes.FirstValue data.[counter e]))
        (map (λ e, Some (descriptor e)) Catalog) Catalog)
    by (unfold collectPDH_operands; by rewrite Hc).
  destruct (first_panic _) eqn:Hp; [done|].
  apply first_panic_None in Hp. rewrite Hops in Hp at 1.
  apply (operands_success (λ e, perftypes.FirstValue data.[counter e])) in Hp.
  rewrite Hp.
  intros Hrun. injection Hrun as <-. by exists h, perfData, data.
Qed.

Lemma Collect_success (c : Collector) (ctx : types.ScrapeContext) (w : World)
    (t : list Event) :
  has_descriptors c →
  Collect c ctx w = (t, Done None) →
  ∃ v : Entry → float64, sent t = map (λ e, sample e (v e)) Catalog.
Proof.
  intros Hc. rewrite Collect_unfold. destruct (pdhEnabled w).
  - destruct (collectPDH c w) as [t' r] eqn:Hrun. intros [= <- ->].
    apply collectPDH_success in Hrun as (h & perfData & data & _ & _ & _ & ->); [|done].
    exists (λ e, perftypes.FirstValue data.[counter e]).
    cbn [sent]. apply sent_sends.
  - destruct (collect c ctx w) as [t' r] eqn:Hrun. intros [= <- ->].
    apply collect_success in Hrun as (r & rest & _ & ->); [|done].
    exists (λ e, field e r). cbn [sent]. apply sent_sends.
Qed.

(** A pass on a built collector sends the whole catalog and returns nil,
    or sends nothing and returns an error or panics. *)
Lemma Collect_all_or_nothing (c : Collector) (ctx : types.ScrapeContext) (w : World) :
  prometheus.IsValidMetricName types.Namespace = true →
  has_descriptors c →
  (∃ v : Entry → float64,
     (Collect c ctx w).2 = Done None ∧
     sent (Collect c ctx w).1 = map (λ e, sample e (v e)) Catalog) ∨
  (∃ err, (Collect c ctx w).2 = Done (Some err) ∧ sent (Collect c ctx w).1 = []) ∨
  (∃ p, (Collect c ctx w).2 = Panicked p ∧ sent (Collect c ctx w).1 = []).
Proof.
  intros Hns Hc. rewrite Collect_unfold. destruct (pdhEnabled w).
  - rewrite collectPDH_unfold.
    destruct (Collector.perfDataCollector c) as [h|] eqn:Hh; [|by right; right; eexists].
    destruct (handleCollect w h) as [perfData [err|]] eqn:Hcollect;
      [by right; left; eexists|].
    destruct (perfData !! perftypes.EmptyInstance) as [data|] eqn:Hdata;
      [|by right; left; eexists].
    left. exists (λ e, perftypes.FirstValue data.[counter e]).
    rewrite send_all_run, collectPDH_operands_built by done.
    rewrite delivered_Done, first_panic_Done. cbn [fst snd sent].
    by rewrite sent_sends.
  - destruct (v1.UnmarshalObject (types.PerfObjects ctx !! "DHCP Server"))
      as [[|r rest] [err|]] eqn:Hdec.
    + erewrite collect_decode_error by done. by right; left; eexists.
    + rewrite collect_no_record by done. by right; right; eexists.
    + erewrite collect_decode_error by done. by right; left; eexists.
    + erewrite collect_record by done. left. exists (λ e, field e r).
      cbn [fst snd sent]. by rewrite sent_sends.
Qed.

(** ** The claims of the specification *)

(** C1.  Run on raw inputs that hold the same counter values, the
    structured-decode path [collect] and the named-lookup path
    [collectPDH] send the same sequence of samples: the same descriptors
    (name and help), kinds and values, in the same order.  The two
    collectors need only hold the same descriptors, and the two passes may
    run in different worlds.  When a record and its instance are there,
    the two passes also end alike. *)
Theorem collect_collectPDH_same_samples (c1 c2 : Collector) (ctx : types.ScrapeContext)
    (w1 w2 : World) (dhcpPerfs : list dhcpPerf) (h : Handle)
    (perfData : gmap string (gmap string perftypes.CounterValues)) :
  descriptors c1 = descriptors c2 →
  v1.UnmarshalObject (types.PerfObjects ctx !! "DHCP Server") = (dhcpPerfs, None) →
  Collector.perfDataCollector c2 = Some h →
  handleCollect w2 h = (perfData, None) →
  same_raw dhcpPerfs perfData →
  sent (collect c1 ctx w1).1 = sent (collectPDH c2 w2).1 ∧
  (dhcpPerfs ≠ [] → (collect c1 ctx w1).2 = (collectPDH c2 w2).2).
Proof.
  intros Hdesc Hdec Hh Hcollect Hsame.
  rewrite collect_unfold, collectPDH_unfold, Hdec, Hh, Hcollect.
  unfold same_raw in Hsame.
  destruct dhcpPerfs as [|r rest], (perfData !! perftypes.EmptyInstance) as [data|];
    [done| |  |done].
  - by rewrite collect_operands_nil_run.
  - rewrite (collect_operands_same c1 r rest data Hsame), !send_all_run.
    unfold collectPDH_operands. by rewrite Hdesc.
Qed.

(** C2.  What the code does where the claim expects a "no records" error:
    when the snapshot decodes without error to an empty sequence of
    records, [collect] sends nothing and panics on [dhcpPerfs[0]]; no
    error is returned. *)
Theorem collect_empty_records_panics (c : Collector) (ctx : types.ScrapeContext)
    (w : World) :
  v1.UnmarshalObject (types.PerfObjects ctx !! "DHCP Server") = ([], None) →
  collect c ctx w = ([], Panicked (IndexOutOfRange 0 0)) ∧
  sent (collect c ctx w).1 = [] ∧
  ∀ err : option error, (collect c ctx w).2 ≠ Done err.
Proof. intros Hdec. by rewrite collect_no_record. Qed.

(** C3, as amended.  When the result of the collection through the handle
    lacks the singleton instance key, [collectPDH] returns the error
    "perflib query for DHCP Server returned empty result set" and sends no
    sample. *)
Theorem collectPDH_missing_instance (c : Collector) (w : World) (h : Handle)
    (perfData : gmap string (gmap string perftypes.CounterValues)) :
  Collector.perfDataCollector c = Some h →
  handleCollect w h = (perfData, None) →
  perfData !! perftypes.EmptyInstance = None →
  (collectPDH c w).2
    = Done (Some "perflib query for DHCP Server returned empty result set") ∧
  sent (collectPDH c w).1 = [].
Proof. intros Hh Hcollect Hdata. by erewrite collectPDH_no_instance. Qed.

(** C4.  After a [Build] without error the collector holds, for every
    entry of the catalog, the descriptor named
    [<namespace>_dhcp_<metric>]; every pass that returns nil, on either
    path, has sent exactly one sample per entry with that name and the
    kind of the entry, in the order of the catalog; and each path does
    return nil when its record, or its instance, is there. *)
Theorem Build_metric_set (c0 c : Collector) (wb : World) (tb : list Event) :
  prometheus.IsValidMetricName types.Namespace = true →
  Build c0 wb = (tb, Done (c, None)) →
  map (fmap prometheus.fqName) (descriptors c)
    = map (λ e, Some (types.Namespace +:+ "_dhcp_" +:+ metric e)) Catalog ∧
  (∀ ctx w t,
     Collect c ctx w = (t, Done None) →
     map (λ m, (prometheus.fqName (prometheus.desc m), prometheus.valType m)) (sent t)
     = map (λ e, (types.Namespace +:+ "_dhcp_" +:+ metric e, kind e)) Catalog) ∧
  (∀ ctx w r rest,
     pdhEnabled w = false →
     v1.UnmarshalObject (types.PerfObjects ctx !! "DHCP Server") = (r :: rest, None) →
     (Collect c ctx w).2 = Done None) ∧
  (∀ ctx w h perfData data,
     pdhEnabled w = true →
     Collector.perfDataCollector c = Some h →
     handleCollect w h = (perfData, None) →
     perfData !! perftypes.EmptyInstance = Some data →
     (Collect c ctx w).2 = Done None).
Proof.
  intros Hns [Hc _]%Build_ok. repeat split.
  - rewrite Hc, map_map. apply map_ext_in. intros e He%list_elem_of_In.
    cbn [fmap option_fmap option_map]. by rewrite descriptor_fqName.
  - intros ctx w t [v ->]%Collect_success; [|done].
    rewrite map_map. apply map_ext_in. intros e He%list_elem_of_In.
    cbn [sample prometheus.desc prometheus.valType]. by rewrite descriptor_fqName.
  - intros ctx w r rest Hw Hdec. rewrite Collect_unfold, Hw.
    by erewrite collect_record.
  - intros ctx w h perfData data Hw Hh Hcollect Hdata. rewrite Collect_unfold, Hw.
    by erewrite collectPDH_instance.
Qed.

(** C5.  What the code does where the claim allows only the whole catalog
    or a returned error: with the switch off and a snapshot that decodes
    to no record, [Collect] sends nothing, returns neither nil nor an
    error, and panics. *)
Theorem Collect_empty_records_panics (c : Collector) (ctx : types.ScrapeContext)
    (w : World) :
  pdhEnabled w = false →
  v1.UnmarshalObject (types.PerfObjects ctx !! "DHCP Server") = ([], None) →
  Collect c ctx w = ([EvPDHEnabled false], Panicked (IndexOutOfRange 0 0)) ∧
  sent (Collect c ctx w).1 = [] ∧
  ∀ err : option error, (Collect c ctx w).2 ≠ Done err.
Proof. intros Hw Hdec. by rewrite Collect_unfold, Hw, collect_no_record. Qed.

Lemma collect_switch (c : Collector) (ctx : types.ScrapeContext) (w : World) :
  switch_evaluations (collect c ctx w).1 = 0.
Proof.
  rewrite collect_unfold. destruct (v1.UnmarshalObject _) as [dhcpPerfs [err|]]; [done|].
  rewrite send_all_run. apply switch_evaluations_sends.
Qed.

Lemma collectPDH_switch (c : Collector) (w : World) :
  switch_evaluations (collectPDH c w).1 = 0.
Proof.
  rewrite collectPDH_unfold.
  destruct (Collector.perfDataCollector c) as [h|]; [|done].
  destruct (handleCollect w h) as [perfData [err|]]; [done|].
  destruct (perfData !! perftypes.EmptyInstance) as [data|]; [|done].
  rewrite send_all_run. apply switch_evaluations_sends.
Qed.

(** C6, as amended.  The switch is evaluated once in every [Build] and
    once again in every [Collect]: a pass first asks the switch and then
    runs [collectPDH] when the answer at that moment is true and [collect]
    otherwise, whatever the collector holds. *)
Theorem Collect_evaluates_switch (c : Collector) (ctx : types.ScrapeContext) (w : World) :
  switch_evaluations (Build c w).1 = 1 ∧
  switch_evaluations (Collect c ctx w).1 = 1 ∧
  Collect c ctx w =
    let '(t, r) := if pdhEnabled w then collectPDH c w else collect c ctx w in
    (EvPDHEnabled (pdhEnabled w) :: t, r).
Proof.
  split; [apply Build_switch|]. split; [|apply Collect_unfold].
  rewrite Collect_unfold. destruct (pdhEnabled w).
  - pose proof (collectPDH_switch c w) as Hs.
    destruct (collectPDH c w) as [t r]. cbn in *. by rewrite Hs.
  - pose proof (collect_switch c ctx w) as Hs.
    destruct (collect c ctx w) as [t r]. cbn in *. by rewrite Hs.
Qed.

(** C7, as amended.  [Close] returns nil and does nothing else: it makes
    no call on the query handle, so a handle made by [Build] is not
    released by it. *)
Theorem Close_does_nothing (c : Collector) (w : World) :
  Close c w = ([], Done None) ∧ released (Close c w).1 = [].
Proof. done. Qed.

(** C8.  Two runs of [Build] that return nil, on any two collectors and in
    any two worlds, leave the same descriptors (name and help text) in
    every descriptor field; and passes on the two collectors that return
    nil have sent samples of the same descriptors with the same kinds,
    entry by entry. *)
Theorem Build_deterministic (c01 c02 c1 c2 : Collector) (w1 w2 : World)
    (t1 t2 : list Event) :
  Build c01 w1 = (t1, Done (c1, None)) →
  Build c02 w2 = (t2, Done (c2, None)) →
  descriptors c1 = descriptors c2 ∧
  descriptors c1 = map (λ e, Some (descriptor e)) Catalog ∧
  ∀ ctx ctx' w w' t t',
    Collect c1 ctx w = (t, Done None) →
    Collect c2 ctx' w' = (t', Done None) →
    map (λ m, (prometheus.desc m, prometheus.valType m)) (sent t)
    = map (λ m, (prometheus.desc m, prometheus.valType m)) (sent t') ∧
    map (λ m, (prometheus.desc m, prometheus.valType m)) (sent t)
    = map (λ e, (descriptor e, kind e)) Catalog.
Proof.
  intros [Hc1 _]%Build_ok [Hc2 _]%Build_ok.
  split; [by rewrite Hc1, Hc2|]. split; [done|].
  intros ctx ctx' w w' t t' [v ->]%Collect_success [v' ->]%Collect_success;
    try assumption.
  by rewrite !map_map.
Qed.

(** C9.  On the structured-decode path, when the snapshot decodes to
    exactly one record whose [PacketsReceivedTotal] is 42, [collect] on a
    built collector returns nil, and the first sample it sends is named
    [<namespace>_dhcp_packets_received_total], is a counter and has the
    value 42. *)
Theorem collect_packets_received_42 (c0 c : Collector) (wb w : World)
    (tb : list Event) (ctx : types.ScrapeContext) (r : dhcpPerf) :
  prometheus.IsValidMetricName types.Namespace = true →
  Build c0 wb = (tb, Done (c, None)) →
  v1.UnmarshalObject (types.PerfObjects ctx !! "DHCP Server") = ([r], None) →
  PacketsReceivedTotal r = float64_of_Z 42 →
  ∃ m rest,
    collect c ctx w = (EvSend m :: rest, Done None) ∧
    prometheus.fqName (prometheus.desc m)
      = types.Namespace +:+ "_dhcp_packets_received_total" ∧
    prometheus.valType m = prometheus.CounterValue ∧
    prometheus.val m = float64_of_Z 42.
Proof.
  intros Hns [Hc _]%Build_ok Hdec H42.
  erewrite collect_record by done.
  eexists _, _. split; [done|]. cbn [sample prometheus.desc prometheus.valType
    prometheus.val kind field]. split; [|done].
  by rewrite descriptor_fqName by (done || by left).
Qed.

(** C10.  On the named-lookup path, when the singleton instance is in the
    result but the counter of a catalog entry is absent from its value
    map, [collectPDH] on a built collector still returns nil, and the
    sample it sends for that entry has the value zero. *)
Theorem collectPDH_absent_counter_zero (c0 c : Collector) (wb w : World)
    (tb : list Event) (h : Handle)
    (perfData : gmap string (gmap string perftypes.CounterValues))
    (data : gmap string perftypes.CounterValues) (i : nat) (e : Entry) :
  prometheus.IsValidMetricName types.Namespace = true →
  Build c0 wb = (tb, Done (c, None)) →
  Collector.perfDataCollector c = Some h →
  handleCollect w h = (perfData, None) →
  perfData !! perftypes.EmptyInstance = Some data →
  Catalog !! i = Some e →
  data !! counter e = None →
  (collectPDH c w).2 = Done None ∧
  length (sent (collectPDH c w).1) = length Catalog ∧
  sent (collectPDH c w).1 !! i = Some (sample e float64_zero).
Proof.
  intros Hns [Hc _]%Build_ok Hh Hcollect Hdata Hi He.
  erewrite collectPDH_instance by done. cbn [fst snd sent].
  rewrite sent_sends. split; [done|]. split; [by rewrite length_map|].
  rewrite list_lookup_fmap, Hi. cbn. by rewrite He.
Qed.

End properties.

(** ** The claims on the sample host *)

Section on_the_sample_host.
Import Sample.

(** The hypotheses at the sample inputs hold by evaluation; the answer of
    a world is read off its definition. *)
Ltac evaluate :=
  lazymatch goal with
  | |- handleCollect _ _ = _ => reflexivity
  | _ => vm_compute; repeat split; reflexivity
  end.

Lemma collect_collectPDH_same_samples_witness :
  let c1 := built legacy_world in
  let c2 := built (pdh_world ∅) in
  let ctx := ctx_of [record] in
  sent (collect c1 ctx legacy_world).1 = sent (collectPDH c2 (pdh_world perfData)).1 ∧
  ([record] ≠ [] →
   (collect c1 ctx legacy_world).2 = (collectPDH c2 (pdh_world perfData)).2).
Proof.
  apply (collect_collectPDH_same_samples (built legacy_world) (built (pdh_world ∅))
           (ctx_of [record]) legacy_world (pdh_world perfData) [record] handle perfData);
    evaluate.
Defined.

Lemma collect_empty_records_panics_witness :
  let c := built legacy_world in
  collect c (ctx_of []) legacy_world = ([], Panicked (IndexOutOfRange 0 0)) ∧
  sent (collect c (ctx_of []) legacy_world).1 = [] ∧
  ∀ err : option error, (collect c (ctx_of []) legacy_world).2 ≠ Done err.
Proof.
  apply (collect_empty_records_panics (built legacy_world) (ctx_of []) legacy_world);
    evaluate.
Defined.

Lemma collectPDH_missing_instance_witness :
  let c := built (pdh_world ∅) in
  (collectPDH c (pdh_world perfData_other)).2
    = Done (Some "perflib query for DHCP Server returned empty result set") ∧
  sent (collectPDH c (pdh_world perfData_other)).1 = [].
Proof.
  apply (collectPDH_missing_instance (built (pdh_world ∅)) (pdh_world perfData_other)
           handle perfData_other);
    evaluate.
Defined.

(** C3, as stated, fails: the result lacks the singleton instance key, an
    error is returned, and its message does not contain "not found". *)
Lemma collectPDH_missing_instance_counterexample :
  let c := built (pdh_world ∅) in
  perfData_other !! perftypes.EmptyInstance = None ∧
  ¬ ∃ err, (collectPDH c (pdh_world perfData_other)).2 = Done (Some err) ∧
           strings.Contains err "not found" = true.
Proof.
  split; [evaluate|]. intros (err & Hrun & Hfound).
  vm_compute in Hrun. injection Hrun as <-. vm_compute in Hfound. discriminate Hfound.
Qed.

Lemma Build_metric_set_witness :
  let c := built legacy_world in
  map (fmap prometheus.fqName) (descriptors c)
    = map (λ e, Some (types.Namespace +:+ "_dhcp_" +:+ metric e)) Catalog ∧
  (∀ ctx w t,
     Collect c ctx w = (t, Done None) →
     map (λ m, (prometheus.fqName (prometheus.desc m), prometheus.valType m)) (sent t)
     = map (λ e, (types.Namespace +:+ "_dhcp_" +:+ metric e, kind e)) Catalog) ∧
  (∀ ctx w r rest,
     pdhEnabled w = false →
     v1.UnmarshalObject (types.PerfObjects ctx !! "DHCP Server") = (r :: rest, None) →
     (Collect c ctx w).2 = Done None) ∧
  (∀ ctx w h perfData data,
     pdhEnabled w = true →
     Collector.perfDataCollector c = Some h →
     handleCollect w h = (perfData, None) →
     perfData !! perftypes.EmptyInstance = Some data →
     (Collect c ctx w).2 = Done None).
Proof.
  apply (Build_metric_set (New None) (built legacy_world) legacy_world
           [EvPDHEnabled false]);
    evaluate.
Defined.

Lemma Collect_empty_records_panics_witness :
  let c := built legacy_world in
  Collect c (ctx_of []) legacy_world
    = ([EvPDHEnabled false], Panicked (IndexOutOfRange 0 0)) ∧
  sent (Collect c (ctx_of []) legacy_world).1 = [] ∧
  ∀ err : option error, (Collect c (ctx_of []) legacy_world).2 ≠ Done err.
Proof.
  apply (Collect_empty_records_panics (built legacy_world) (ctx_of []) legacy_world);
    evaluate.
Defined.

(** C6, as stated, fails: [Build] ran with the switch on and made the
    handle; a later pass in a world where the switch is off evaluates the
    switch again and runs the structured-decode path. *)
Lemma Collect_evaluates_switch_counterexample :
  let c := built (pdh_world ∅) in
  Build (New None) (pdh_world ∅)
    = ((Build (New None) (pdh_world ∅)).1, Done (c, None)) ∧
  Collector.perfDataCollector c = Some handle ∧
  switch_evaluations (Collect c (ctx_of [record]) legacy_world).1 ≠ 0 ∧
  Collect c (ctx_of [record]) legacy_world
    = (EvPDHEnabled false :: (collect c (ctx_of [record]) legacy_world).1, Done None).
Proof. repeat split; try evaluate. vm_compute. discriminate. Qed.

(** C7, as stated, fails: [Build] ran with the switch on and made the
    handle; [Close] returns without releasing it. *)
Lemma Close_does_nothing_counterexample :
  let c := built (pdh_world ∅) in
  Build (New None) (pdh_world ∅)
    = ((Build (New None) (pdh_world ∅)).1, Done (c, None)) ∧
  Collector.perfDataCollector c = Some handle ∧
  (Close c (pdh_world ∅)).2 = Done None ∧
  handle ∉ released (Close c (pdh_world ∅)).1.
Proof. repeat split; try evaluate. vm_compute. apply not_elem_of_nil. Qed.

Lemma Build_deterministic_witness :
  let c1 := built legacy_world in
  let c2 := built (pdh_world ∅) in
  descriptors c1 = descriptors c2 ∧
  descriptors c1 = map (λ e, Some (descriptor e)) Catalog ∧
  ∀ ctx ctx' w w' t t',
    Collect c1 ctx w = (t, Done None) →
    Collect c2 ctx' w' = (t', Done None) →
    map (λ m, (prometheus.desc m, prometheus.valType m)) (sent t)
    = map (λ m, (prometheus.desc m, prometheus.valType m)) (sent t') ∧
    map (λ m, (prometheus.desc m, prometheus.valType m)) (sent t)
    = map (λ e, (descriptor e, kind e)) Catalog.
Proof.
  apply (Build_deterministic (New None) (New None) (built legacy_world)
           (built (pdh_world ∅)) legacy_world (pdh_world ∅)
           (Build (New None) legacy_world).1 (Build (New None) (pdh_world ∅)).1);
    evaluate.
Defined.

Lemma collect_packets_received_42_witness :
  ∃ m rest,
    collect (built legacy_world) (ctx_of [record]) legacy_world
      = (EvSend m :: rest, Done None) ∧
    prometheus.fqName (prometheus.desc m)
      = types.Namespace +:+ "_dhcp_packets_received_total" ∧
    prometheus.valType m = prometheus.CounterValue ∧
    prometheus.val m = float64_of_Z 42.
Proof.
  apply (collect_packets_received_42 (New None) (built legacy_world) legacy_world
           legacy_world [EvPDHEnabled false] (ctx_of [record]) record);
    evaluate.
Defined.

Lemma collectPDH_absent_counter_zero_witness :
  let c := built (pdh_world ∅) in
  let w := pdh_world perfData_one in
  let e := {| metric := "duplicates_dropped_total";
              helpText := "Total number of duplicate packets received by the DHCP server (DuplicatesDroppedTotal)";
              kind := prometheus.CounterValue;
              field := DuplicatesDroppedTotal;
              counter := duplicatesDroppedTotal |} in
  (collectPDH c w).2 = Done None ∧
  length (sent (collectPDH c w).1) = length Catalog ∧
  sent (collectPDH c w).1 !! 1 = Some (sample e float64_zero).
Proof.
  intros c w e.
  apply (collectPDH_absent_counter_zero (New None) c (pdh_world ∅) w
           (Build (New None) (pdh_world ∅)).1 handle perfData_one data_one 1 e);
    evaluate.
Defined.
End on_the_sample_host.

(** * Further properties of the collector *)

Lemma append_empty_r (s : string) : s +:+ EmptyString = s.
Proof.
  induction s as [|a s IH]; [done|].
  change (String a (s +:+ EmptyString) = String a s). by rewrite IH.
Qed.

Lemma append_cancel_l (p s1 s2 : string) : p +:+ s1 = p +:+ s2 → s1 = s2.
Proof.
  induction p as [|a p IH]; [done|]. intros Heq.
  change (String a (p +:+ s1) = String a (p +:+ s2)) in Heq.
  injection Heq as Heq. by apply IH.
Qed.

(** The two error formats of the collector put the wrapped error behind
    their text. *)
Lemma Errorf_create (err : error) :
  fmt.Errorf "failed to create DHCP Server collector: %w" err
  = "failed to create DHCP Server collector: " +:+ err.
Proof. cbv -[String.append]. by rewrite append_empty_r. Qed.

Lemma Errorf_collect (err : error) :
  fmt.Errorf "failed to collect DHCP Server metrics: %w" err
  = "failed to collect DHCP Server metrics: " +:+ err.
Proof. cbv -[String.append]. by rewrite append_empty_r. Qed.

Lemma handle_calls_sends (ms : list prometheus.Metric) : handle_calls (map EvSend ms) = [].
Proof. by induction ms. Qed.

(** In a list whose images under [g] are distinct, elements with the same
    image are the same. *)
Lemma NoDup_map_eq {A B : Type} (g : A → B) (l : list A) (x y : A) :
  NoDup (map g l) → x ∈ l → y ∈ l → g x = g y → x = y.
Proof.
  induction l as [|a l IH]; cbn [map]; [by intros _ ?%elem_of_nil|].
  intros [Ha Hl]%NoDup_cons [->|Hx]%elem_of_cons [->|Hy]%elem_of_cons Hg; try done.
  - destruct Ha. rewrite Hg. by apply (list_elem_of_fmap_2 g).
  - destruct Ha. rewrite <- Hg. by apply (list_elem_of_fmap_2 g).
  - by apply IH.
Qed.

Section further_properties.
Context `{!types.Decl, !perftypes.Decl, !perfdata.Decl, !v1.Decl, !Const}.

(** ** Build *)

(** When the switch is on and the query handle cannot be made, [Build]
    returns the error of the creation behind the prefix "failed to create
    DHCP Server collector: ", has made no descriptor (the descriptor fields
    are as before the call), and has stored what the creation returned in
    place of a handle. *)
Theorem Build_handle_error (c0 : Collector) (w : World)
    (p : option perfdata.Collector) (err : error) :
  pdhEnabled w = true →
  newCollector w "DHCP Server" perfdata.AllInstances requested_counters = (p, Some err) →
  ∃ c,
    Build c0 w
    = ([EvPDHEnabled true;
        EvNewCollector "DHCP Server" perfdata.AllInstances requested_counters],
       Done (c, Some ("failed to create DHCP Server collector: " +:+ err))) ∧
    descriptors c = descriptors c0 ∧
    Collector.perfDataCollector c = p ∧
    Collector.config c = Collector.config c0.
Proof.
  intros Hw Hnew. exists (Collector.set_perfDataCollector p c0).
  split; [|done].
  unfold Build, mbind, M_bind, utils.PDHEnabled, perfdata.NewCollector.
  rewrite Hw. fold requested_counters. rewrite Hnew.
  cbn [app mret M_ret]. by rewrite Errorf_create.
Qed.

(** When the switch is on and the query handle is made, [Build] returns
    nil with the descriptors of the catalog in place and the new handle
    stored; a handle the collector held before is overwritten, and no call
    is made on it. *)
Theorem Build_stores_new_handle (c0 : Collector) (w : World)
    (p : option perfdata.Collector) :
  pdhEnabled w = true →
  newCollector w "DHCP Server" perfdata.AllInstances requested_counters = (p, None) →
  ∃ c,
    Build c0 w
    = ([EvPDHEnabled true;
        EvNewCollector "DHCP Server" perfdata.AllInstances requested_counters],
       Done (c, None)) ∧
    has_descriptors c ∧
    Collector.perfDataCollector c = p ∧
    Collector.config c = Collector.config c0.
Proof.
  intros Hw Hnew.
  unfold Build, mbind, M_bind, utils.PDHEnabled, perfdata.NewCollector.
  rewrite Hw. fold requested_counters. rewrite Hnew. by eexists.
Qed.

Lemma Build_switch_off (c0 : Collector) (w : World) :
  pdhEnabled w = false →
  ∃ c,
    Build c0 w = ([EvPDHEnabled false], Done (c, None)) ∧
    has_descriptors c ∧
    Collector.perfDataCollector c = Collector.perfDataCollector c0 ∧
    Collector.config c = Collector.config c0.
Proof.
  intros Hw. unfold Build, mbind, M_bind, utils.PDHEnabled. rewrite Hw.
  by eexists.
Qed.

(** When the switch is off, [Build] cannot fail: it asks for no query
    handle, returns nil, and leaves the handle field and the configuration
    of the collector as they were. *)
Theorem Build_legacy (c0 : Collector) (w : World) :
  pdhEnabled w = false →
  ∃ c,
    Build c0 w = ([EvPDHEnabled false], Done (c, None)) ∧
    has_descriptors c ∧
    Collector.perfDataCollector c = Collector.perfDataCollector c0 ∧
    Collector.config c = Collector.config c0.
Proof. apply Build_switch_off. Qed.



(** ** Collect and what it reads *)

(** A pass reads the scrape context only at the objects [GetPerfCounter]
    names in the same world: two contexts that agree on them give the same
    pass.  With the switch on no object is named and the context is not
    read at all. *)
Theorem Collect_reads_advertised_objects (c : Collector) (ctx ctx' : types.ScrapeContext)
    (w : World) (objects : list string) (err : option error) :
  (GetPerfCounter c w).2 = Done (objects, err) →
  (∀ name, name ∈ objects → types.PerfObjects ctx !! name = types.PerfObjects ctx' !! name) →
  Collect c ctx w = Collect c ctx' w.
Proof.
  unfold GetPerfCounter, mbind, M_bind, utils.PDHEnabled.
  rewrite !Collect_unfold. destruct (pdhEnabled w); [done|].
  cbn. intros [= <- _] Hsame. rewrite !collect_unfold.
  rewrite (Hsame "DHCP Server") by (by left). done.
Qed.

(** With the switch off, an error of the decoder is returned as it is, and
    nothing is sent; this holds for any collector, built or not. *)
Theorem Collect_decode_error (c : Collector) (ctx : types.ScrapeContext) (w : World)
    (dhcpPerfs : list dhcpPerf) (err : error) :
  pdhEnabled w = false →
  v1.UnmarshalObject (types.PerfObjects ctx !! "DHCP Server") = (dhcpPerfs, Some err) →
  Collect c ctx w = ([EvPDHEnabled false], Done (Some err)).
Proof.
  intros Hw Hdec. rewrite Collect_unfold, Hw. by erewrite collect_decode_error.
Qed.

(** When the collection through the handle fails, [collectPDH] returns its
    error behind the prefix "failed to collect DHCP Server metrics: " and
    sends nothing, whatever result came with the error. *)
Theorem collectPDH_collect_error (c : Collector) (w : World) (h : Handle)
    (perfData : gmap string (gmap string perftypes.CounterValues)) (err : error) :
  Collector.perfDataCollector c = Some h →
  handleCollect w h = (perfData, Some err) →
  collectPDH c w
  = ([EvCollect h], Done (Some ("failed to collect DHCP Server metrics: " +:+ err))).
Proof.
  intros Hh Hcollect. rewrite collectPDH_unfold, Hh, Hcollect. by rewrite Errorf_collect.
Qed.

(** [collect] uses the first decoded record only: records after the first
    do not change the pass, for any collector. *)
Theorem collect_first_record_only (c : Collector) (ctx ctx' : types.ScrapeContext)
    (w w' : World) (r : dhcpPerf) (rest rest' : list dhcpPerf) :
  v1.UnmarshalObject (types.PerfObjects ctx !! "DHCP Server") = (r :: rest, None) →
  v1.UnmarshalObject (types.PerfObjects ctx' !! "DHCP Server") = (r :: rest', None) →
  collect c ctx w = collect c ctx' w'.
Proof.
  intros Hdec Hdec'. rewrite !collect_unfold, Hdec, Hdec', !send_all_run.
  by change (collect_operands c (r :: rest)) with (collect_operands c (r :: rest')).
Qed.

Lemma zip_with_ext_Forall {A B C : Type} (f g : A → B → C) (l1 : list A) (l2 : list B) :
  Forall (λ b, ∀ a, f a b = g a b) l2 →
  zip_with f l1 l2 = zip_with g l1 l2.
Proof.
  intros Hl. revert l1. induction Hl as [|b l2 Hb _ IH]; intros [|a l1]; try done.
  cbn [zip_with]. by rewrite Hb, IH.
Qed.

(** [collectPDH] uses, of the whole result, the first values of the catalog
    counters of the singleton instance only: other instances, other
    counters and the second values do not change what is sent, for any
    collector. *)
Theorem collectPDH_first_values_only (c : Collector) (w w' : World) (h : Handle)
    (perfData perfData' : gmap string (gmap string perftypes.CounterValues))
    (data data' : gmap string perftypes.CounterValues) :
  Collector.perfDataCollector c = Some h →
  handleCollect w h = (perfData, None) →
  handleCollect w' h = (perfData', None) →
  perfData !! perftypes.EmptyInstance = Some data →
  perfData' !! perftypes.EmptyInstance = Some data' →
  Forall (λ e, perftypes.FirstValue data.[counter e]
               = perftypes.FirstValue data'.[counter e]) Catalog →
  collectPDH c w = collectPDH c w'.
Proof.
  intros Hh Hcollect Hcollect' Hdata Hdata' Hvalues.
  rewrite !collectPDH_unfold, Hh, Hcollect, Hcollect', Hdata, Hdata', !send_all_run.
  unfold collectPDH_operands.
  rewrite (zip_with_ext_Forall _
    (λ d e, prometheus.MustNewConstMetric d (kind e)
              (perftypes.FirstValue data'.[counter e]))); [done|].
  eapply Forall_impl; [exact Hvalues|]. intros e He d. cbn beta. by rewrite He.
Qed.

(** ** Collect on a collector that is not ready *)

(** A pass on a collector fresh from [New], before any [Build], panics on a
    nil pointer without sending anything: with the switch on at the nil
    handle, with the switch off and a decoded record at the first nil
    descriptor. *)
Theorem Collect_before_Build_panics (config : option Config) (ctx : types.ScrapeContext)
    (w : World) :
  pdhEnabled w = true ∨
    (∃ r rest,
       v1.UnmarshalObject (types.PerfObjects ctx !! "DHCP Server") = (r :: rest, None)) →
  Collect (New config) ctx w = ([EvPDHEnabled (pdhEnabled w)], Panicked NilDereference).
Proof.
  intros Hin. rewrite Collect_unfold. destruct (pdhEnabled w).
  - by rewrite collectPDH_unfold.
  - destruct Hin as [|(r & rest & Hdec)]; [done|].
    by rewrite collect_unfold, Hdec, send_all_run.
Qed.

(** A collector built from [New] while the switch was off holds no handle:
    a later pass that finds the switch on panics on the nil handle without
    sending anything. *)
Theorem Collect_switch_turned_on_panics (config : option Config) (c : Collector)
    (wb w : World) (tb : list Event) (err : option error) (ctx : types.ScrapeContext) :
  pdhEnabled wb = false →
  Build (New config) wb = (tb, Done (c, err)) →
  pdhEnabled w = true →
  Collect c ctx w = ([EvPDHEnabled true], Panicked NilDereference).
Proof.
  intros Hwb Hbuild Hw.
  destruct (Build_switch_off (New config) wb Hwb) as (c' & Hbuild' & _ & Hh & _).
  rewrite Hbuild in Hbuild'. injection Hbuild' as _ <- _.
  by rewrite Collect_unfold, Hw, collectPDH_unfold, Hh.
Qed.

(** ** What any pass sends *)

Lemma delivered_kinds (v : Entry → float64) (ds : list (option prometheus.Desc))
    (l : list Entry) :
  map prometheus.valType
    (delivered (zip_with (λ d e, prometheus.MustNewConstMetric d (kind e) (v e)) ds l))
  `prefix_of` map kind l.
Proof.
  revert ds. induction l as [|e l IH]; intros [|d ds]; cbn [zip_with delivered map];
    try apply prefix_nil.
  destruct (prometheus.MustNewConstMetric d (kind e) (v e)) as [m|p] eqn:Hm;
    [|apply prefix_nil].
  apply MustNewConstMetric_Done in Hm as (_ & _ & <- & _).
  cbn [map]. apply prefix_cons, IH.
Qed.

Lemma delivered_all (operands : list (Res prometheus.Metric)) :
  first_panic operands = None → length (delivered operands) = length operands.
Proof.
  intros Hp%first_panic_None. rewrite Hp at 2. by rewrite length_map.
Qed.

Lemma collectPDH_orderly (c : Collector) (w : World) :
  map prometheus.valType (sent (collectPDH c w).1) `prefix_of` map kind Catalog ∧
  ((collectPDH c w).2 = Done None → length (sent (collectPDH c w).1) = length Catalog) ∧
  (∀ err, (collectPDH c w).2 = Done (Some err) → sent (collectPDH c w).1 = []).
Proof.
  rewrite collectPDH_unfold.
  destruct (Collector.perfDataCollector c) as [h|]; [|by split; [apply prefix_nil|]].
  destruct (handleCollect w h) as [perfData [err|]]; [by split; [apply prefix_nil|]|].
  destruct (perfData !! perftypes.EmptyInstance) as [data|];
    [|by split; [apply prefix_nil|]].
  rewrite send_all_run. cbn [fst snd sent]. rewrite sent_sends.
  split; [apply delivered_kinds|].
  destruct (first_panic _) eqn:Hp; [done|]. split; [|done].
  intros _. by rewrite delivered_all.
Qed.

Lemma collect_orderly (c : Collector) (ctx : types.ScrapeContext) (w : World) :
  map prometheus.valType (sent (collect c ctx w).1) `prefix_of` map kind Catalog ∧
  ((collect c ctx w).2 = Done None → length (sent (collect c ctx w).1) = length Catalog) ∧
  (∀ err, (collect c ctx w).2 = Done (Some err) → sent (collect c ctx w).1 = []).
Proof.
  rewrite collect_unfold.
  destruct (v1.UnmarshalObject _) as [[|r rest] [err|]];
    [by split; [apply prefix_nil|] | | by split; [apply prefix_nil|] | ].
  - rewrite collect_operands_nil_run. by split; [apply prefix_nil|].
  - rewrite send_all_run. cbn [fst snd]. rewrite sent_sends.
    split; [apply (delivered_kinds (λ e, field e r))|].
    destruct (first_panic _) eqn:Hp; [done|]. split; [|done].
    intros _. by rewrite delivered_all.
Qed.

(** Whatever the collector holds, built or not, the kinds of the samples a
    pass sends are an initial part of the kinds of the catalog, in its
    order; when the pass returns nil it has sent a sample for every entry,
    and when it returns an error it has sent nothing. *)
Theorem Collect_sends_catalog_prefix (c : Collector) (ctx : types.ScrapeContext)
    (w : World) :
  map prometheus.valType (sent (Collect c ctx w).1) `prefix_of` map kind Catalog ∧
  ((Collect c ctx w).2 = Done None → length (sent (Collect c ctx w).1) = length Catalog) ∧
  (∀ err, (Collect c ctx w).2 = Done (Some err) → sent (Collect c ctx w).1 = []).
Proof.
  rewrite Collect_unfold. destruct (pdhEnabled w).
  - pose proof (collectPDH_orderly c w) as Ho.
    by destruct (collectPDH c w) as [t r].
  - pose proof (collect_orderly c ctx w) as Ho.
    by destruct (collect c ctx w) as [t r].
Qed.

(** A pass asks no new handle and releases none.  With the switch off it
    makes no call on the handle, even when the collector holds one; with
    the switch on it collects through the handle exactly once, whatever
    comes of it. *)
Theorem Collect_handle_calls (c : Collector) (ctx : types.ScrapeContext) (w : World) :
  handle_calls (Collect c ctx w).1
  = if pdhEnabled w
    then match Collector.perfDataCollector c with
         | Some h => [EvCollect h]
         | None => []
         end
    else [].
Proof.
  rewrite Collect_unfold. destruct (pdhEnabled w).
  - rewrite collectPDH_unfold.
    destruct (Collector.perfDataCollector c) as [h|]; [|done].
    destruct (handleCollect w h) as [perfData [err|]]; [done|].
    destruct (perfData !! perftypes.EmptyInstance) as [data|]; [|done].
    rewrite send_all_run. cbn [fst handle_calls]. by rewrite handle_calls_sends.
  - rewrite collect_unfold.
    destruct (v1.UnmarshalObject _) as [dhcpPerfs [err|]]; [done|].
    rewrite send_all_run. cbn [fst handle_calls]. by rewrite handle_calls_sends.
Qed.

Lemma collectPDH_collect_error_run (c : Collector) (w : World) (h : Handle)
    (perfData : gmap string (gmap string perftypes.CounterValues)) (err : error) :
  Collector.perfDataCollector c = Some h →
  handleCollect w h = (perfData, Some err) →
  collectPDH c w
  = ([EvCollect h],
     Done (Some (fmt.Errorf "failed to collect DHCP Server metrics: %w" err))).
Proof. intros Hh Hcollect. by rewrite collectPDH_unfold, Hh, Hcollect. Qed.

(** ** Values and names *)

(** On a built collector, [collect] sends the fields of the first record
    unchanged, one per catalog entry and in the order of the catalog;
    nothing is computed from them. *)
Theorem collect_copies_fields (c0 c : Collector) (wb w : World) (tb : list Event)
    (ctx : types.ScrapeContext) (r : dhcpPerf) (rest : list dhcpPerf) :
  prometheus.IsValidMetricName types.Namespace = true →
  Build c0 wb = (tb, Done (c, None)) →
  v1.UnmarshalObject (types.PerfObjects ctx !! "DHCP Server") = (r :: rest, None) →
  map prometheus.val (sent (collect c ctx w).1) = map (λ e, field e r) Catalog.
Proof.
  intros Hns [Hc _]%Build_ok Hdec. erewrite collect_record by done.
  cbn [fst]. by rewrite sent_sends, map_map.
Qed.

(** On a built collector, [collectPDH] sends the first values of the
    catalog counters of the singleton instance unchanged (zero for a
    counter that is absent), one per catalog entry and in the order of the
    catalog. *)
Theorem collectPDH_copies_first_values (c0 c : Collector) (wb w : World)
    (tb : list Event) (h : Handle)
    (perfData : gmap string (gmap string perftypes.CounterValues))
    (data : gmap string perftypes.CounterValues) :
  prometheus.IsValidMetricName types.Namespace = true →
  Build c0 wb = (tb, Done (c, None)) →
  Collector.perfDataCollector c = Some h →
  handleCollect w h = (perfData, None) →
  perfData !! perftypes.EmptyInstance = Some data →
  map prometheus.val (sent (collectPDH c w).1)
  = map (λ e, match data !! counter e with
              | Some values => perftypes.FirstValue values
              | None => float64_zero
              end) Catalog.
Proof.
  intros Hns [Hc _]%Build_ok Hh Hcollect Hdata. erewrite collectPDH_instance by done.
  cbn [fst sent]. rewrite sent_sends, map_map. apply map_ext. intros e.
  cbn [sample prometheus.val]. by destruct (data !! counter e).
Qed.

(** With the switch on, a pass on a built collector that holds a handle
    never panics: it returns nil after sending a sample for every catalog
    entry, or it returns an error after sending nothing. *)
Theorem Collect_pdh_never_panics (c0 c : Collector) (wb w : World) (tb : list Event)
    (h : Handle) (ctx : types.ScrapeContext) :
  prometheus.IsValidMetricName types.Namespace = true →
  Build c0 wb = (tb, Done (c, None)) →
  Collector.perfDataCollector c = Some h →
  pdhEnabled w = true →
  ((Collect c ctx w).2 = Done None ∧
   length (sent (Collect c ctx w).1) = length Catalog) ∨
  (∃ err, (Collect c ctx w).2 = Done (Some err) ∧ sent (Collect c ctx w).1 = []).
Proof.
  intros Hns [Hc _]%Build_ok Hh Hw. rewrite Collect_unfold, Hw.
  destruct (handleCollect w h) as [perfData [err|]] eqn:Hcollect.
  - right. erewrite collectPDH_collect_error_run by done. by eexists.
  - destruct (perfData !! perftypes.EmptyInstance) as [data|] eqn:Hdata.
    + left. erewrite collectPDH_instance by done.
      cbn [fst snd sent]. by rewrite sent_sends, !length_map.
    + right. erewrite collectPDH_no_instance by done. by eexists.
Qed.

Lemma BuildFQName_inj (namespace name1 name2 : string) :
  name1 ≠ EmptyString →
  name2 ≠ EmptyString →
  prometheus.BuildFQName namespace Name name1 = prometheus.BuildFQName namespace Name name2 →
  name1 = name2.
Proof.
  intros Hname1 Hname2. unfold prometheus.BuildFQName.
  rewrite (bool_decide_eq_false_2 _ Hname1), (bool_decide_eq_false_2 _ Hname2).
  rewrite (bool_decide_eq_true_2 (Name ≠ EmptyString)) by done.
  destruct (bool_decide (namespace ≠ EmptyString)); cbn [andb].
  - by intros ?%append_cancel_l%append_cancel_l%append_cancel_l%append_cancel_l.
  - by intros ?%append_cancel_l%append_cancel_l.
Qed.

Lemma Catalog_metrics_distinct : NoDup (map metric Catalog).
Proof. apply (bool_decide_unpack _). by vm_compute. Qed.

(** After a [Build] without error no two descriptor fields hold a
    descriptor of the same name, whatever the namespace is. *)
Theorem Build_names_distinct (c0 c : Collector) (w : World) (t : list Event) :
  Build c0 w = (t, Done (c, None)) →
  NoDup (map (fmap prometheus.fqName) (descriptors c)).
Proof.
  intros [Hc _]%Build_ok. rewrite Hc, map_map.
  pose proof Catalog_metrics_distinct as Hdistinct.
  pose proof Catalog_names as Hnames. rewrite Forall_forall in Hnames.
  apply (NoDup_fmap_2_strong _ Catalog); [|by apply (NoDup_fmap_1 metric)].
  intros e1 e2 He1 He2 [= Heq].
  apply (NoDup_map_eq metric Catalog); [done..|].
  apply (BuildFQName_inj types.Namespace); [by apply Hnames..|done].
Qed.

End further_properties.

(** ** The further properties on the sample host *)

Section further_on_the_sample_host.
Import Sample SampleMore.

Ltac evaluate :=
  lazymatch goal with
  | |- handleCollect _ _ = _ => reflexivity
  | |- newCollector _ _ _ _ = _ => reflexivity
  | |- Forall _ _ => repeat (constructor; [vm_compute; reflexivity|]); constructor
  | _ => vm_compute; repeat split; reflexivity
  end.

Lemma Build_handle_error_witness :
  ∃ c,
    Build (New None) pdh_world_unavailable
    = ([EvPDHEnabled true;
        EvNewCollector "DHCP Server" perfdata.AllInstances requested_counters],
       Done (c, Some ("failed to create DHCP Server collector: " +:+ "object not found"))) ∧
    descriptors c = descriptors (New None) ∧
    Collector.perfDataCollector c = None ∧
    Collector.config c = Collector.config (New None).
Proof.
  apply (Build_handle_error (New None) pdh_world_unavailable None "object not found");
    evaluate.
Defined.

Lemma Build_stores_new_handle_witness :
  ∃ c,
    Build (built (pdh_world ∅)) (pdh_world perfData)
    = ([EvPDHEnabled true;
        EvNewCollector "DHCP Server" perfdata.AllInstances requested_counters],
       Done (c, None)) ∧
    has_descriptors c ∧
    Collector.perfDataCollector c = Some handle ∧
    Collector.config c = Collector.config (built (pdh_world ∅)).
Proof.
  apply (Build_stores_new_handle (built (pdh_world ∅)) (pdh_world perfData) (Some handle));
    evaluate.
Defined.

Lemma Build_legacy_witness :
  ∃ c,
    Build (built (pdh_world ∅)) legacy_world = ([EvPDHEnabled false], Done (c, None)) ∧
    has_descriptors c ∧
    Collector.perfDataCollector c = Collector.perfDataCollector (built (pdh_world ∅)) ∧
    Collector.config c = Collector.config (built (pdh_world ∅)).
Proof. apply (Build_legacy (built (pdh_world ∅)) legacy_world). evaluate. Defined.


Lemma Collect_reads_advertised_objects_witness :
  Collect (built legacy_world) (ctx_of [record]) legacy_world
  = Collect (built legacy_world) (ctx_two [record]) legacy_world.
Proof.
  apply (Collect_reads_advertised_objects (built legacy_world) (ctx_of [record])
           (ctx_two [record]) legacy_world ["DHCP Server"] None).
  - evaluate.
  - intros name ->%list_elem_of_singleton. evaluate.
Defined.

Lemma Collect_decode_error_witness :
  Collect (built legacy_world) ctx_none legacy_world
  = ([EvPDHEnabled false], Done (Some "counter not found")).
Proof.
  apply (Collect_decode_error (built legacy_world) ctx_none legacy_world []
           "counter not found");
    evaluate.
Defined.

Lemma collectPDH_collect_error_witness :
  collectPDH (built (pdh_world ∅)) pdh_world_failing
  = ([EvCollect handle],
     Done (Some ("failed to collect DHCP Server metrics: " +:+ "access denied"))).
Proof.
  apply (collectPDH_collect_error (built (pdh_world ∅)) pdh_world_failing handle
           perfData "access denied");
    evaluate.
Defined.

Lemma collect_first_record_only_witness :
  collect (built legacy_world) (ctx_of [record]) legacy_world
  = collect (built legacy_world) (ctx_of [record; record2]) (pdh_world ∅).
Proof.
  apply (collect_first_record_only (built legacy_world) (ctx_of [record])
           (ctx_of [record; record2]) legacy_world (pdh_world ∅) record [] [record2]);
    evaluate.
Defined.

Lemma collectPDH_first_values_only_witness :
  collectPDH (built (pdh_world ∅)) (pdh_world perfData)
  = collectPDH (built (pdh_world ∅)) (pdh_world perfData_noisy).
Proof.
  apply (collectPDH_first_values_only (built (pdh_world ∅)) (pdh_world perfData)
           (pdh_world perfData_noisy) handle perfData perfData_noisy data data_noisy).
  - evaluate.
  - evaluate.
  - evaluate.
  - apply lookup_singleton_eq.
  - apply lookup_insert_eq.
  - evaluate.
Defined.

Lemma Collect_before_Build_panics_witness :
  Collect (New None) (ctx_of [record]) legacy_world
  = ([EvPDHEnabled false], Panicked NilDereference).
Proof.
  apply (Collect_before_Build_panics None (ctx_of [record]) legacy_world).
  right. exists record, []. evaluate.
Defined.

Lemma Collect_switch_turned_on_panics_witness :
  Collect (built legacy_world) (ctx_of [record]) (pdh_world perfData)
  = ([EvPDHEnabled true], Panicked NilDereference).
Proof.
  apply (Collect_switch_turned_on_panics None (built legacy_world) legacy_world
           (pdh_world perfData) [EvPDHEnabled false] None (ctx_of [record]));
    evaluate.
Defined.

Lemma collect_copies_fields_witness :
  map prometheus.val (sent (collect (built legacy_world) (ctx_of [record; record2])
                              legacy_world).1)
  = map (λ e, field e record) Catalog.
Proof.
  apply (collect_copies_fields (New None) (built legacy_world) legacy_world legacy_world
           [EvPDHEnabled false] (ctx_of [record; record2]) record [record2]);
    evaluate.
Defined.

Lemma collectPDH_copies_first_values_witness :
  map prometheus.val (sent (collectPDH (built (pdh_world ∅)) (pdh_world perfData_one)).1)
  = map (λ e, match data_one !! counter e with
              | Some values => perftypes.FirstValue values
              | None => float64_zero
              end) Catalog.
Proof.
  apply (collectPDH_copies_first_values (New None) (built (pdh_world ∅)) (pdh_world ∅)
           (pdh_world perfData_one) (Build (New None) (pdh_world ∅)).1 handle
           perfData_one data_one);
    evaluate.
Defined.

Lemma Collect_pdh_never_panics_witness :
  let c := built (pdh_world ∅) in
  ((Collect c ctx_none pdh_world_failing).2 = Done None ∧
   length (sent (Collect c ctx_none pdh_world_failing).1) = length Catalog) ∨
  (∃ err, (Collect c ctx_none pdh_world_failing).2 = Done (Some err) ∧
          sent (Collect c ctx_none pdh_world_failing).1 = []).
Proof.
  apply (Collect_pdh_never_panics (New None) (built (pdh_world ∅)) (pdh_world ∅)
           pdh_world_failing (Build (New None) (pdh_world ∅)).1 handle ctx_none);
    evaluate.
Defined.

Lemma Build_names_distinct_witness :
  NoDup (map (fmap prometheus.fqName) (descriptors (built (pdh_world ∅)))).
Proof.
  apply (Build_names_distinct (New None) (built (pdh_world ∅)) (pdh_world ∅)
           (Build (New None) (pdh_world ∅)).1).
  evaluate.
Defined.

End further_on_the_sample_host.
